(** * Portfolio Manager (Acoes PAI): the calculation layer of
      [src/components/PortfolioManagerPAI.tsx]

    A shallow embedding of [aggregatePositions], [shareCountAtDate],
    [csvToTransactions], [upsert] and [setPrice], and the properties of the
    specification that concern them.

    Conventions of the embedding.
    - A JavaScript [number] is an extended rational: [NaN], the two
      infinities, or a finite value in [Q].  Arithmetic on finite values is
      exact: rounding and overflow of binary64 are not modelled, and the two
      zeros are identified.  The statements on sums and averages therefore
      use of this arithmetic only what binary64 has too: the same
      operations on the same operands in the same order, comparisons, and
      the monotonicity of [+] and [/]; sums are accumulated in stored
      order, as the loops do.  Where rounding itself decides, the
      cost-basis loop is run on binary64 ([B64]).
    - A JavaScript [Map] is an association list in insertion order.
    - [new Date(s)] and [String.prototype.localeCompare] are host functions;
      the engine is parameterised by them ([DateValue], [localeCompare]).
      [uid] and [todayISO] are parameters of the CSV importer. *)

From Stdlib Require Import ZArith QArith Qminmax Lqa Lia.
From Stdlib Require Import List String Ascii Bool Permutation.
Import ListNotations.

Set Implicit Arguments.

(* ===================================================================== *)
(** * JavaScript numbers *)
(* ===================================================================== *)

Module JS.

Inductive number : Type :=
| NaN
| PInf
| NInf
| Fin (q : Q).

Definition zero : number := Fin 0.
Definition hundred : number := Fin 100.

Definition Qltb (x y : Q) : bool := negb (Qle_bool y x).
Definition Qeqb (x y : Q) : bool := Qeq_bool x y.

(** unary minus *)
Definition neg (a : number) : number :=
  match a with
  | NaN => NaN
  | PInf => NInf
  | NInf => PInf
  | Fin x => Fin (- x)
  end.

(** [a + b] *)
Definition add (a b : number) : number :=
  match a, b with
  | NaN, _ | _, NaN => NaN
  | PInf, NInf | NInf, PInf => NaN
  | PInf, _ | _, PInf => PInf
  | NInf, _ | _, NInf => NInf
  | Fin x, Fin y => Fin (x + y)
  end.

(** [a - b] *)
Definition sub (a b : number) : number := add a (neg b).

(** sign of an infinity times the sign of a finite, non-zero factor *)
Definition signed_inf (positive : bool) : number :=
  if positive then PInf else NInf.

(** [a * b] *)
Definition mul (a b : number) : number :=
  match a, b with
  | NaN, _ | _, NaN => NaN
  | PInf, PInf | NInf, NInf => PInf
  | PInf, NInf | NInf, PInf => NInf
  | PInf, Fin y | Fin y, PInf =>
      if Qeqb y 0 then NaN else signed_inf (Qltb 0 y)
  | NInf, Fin y | Fin y, NInf =>
      if Qeqb y 0 then NaN else signed_inf (Qltb y 0)
  | Fin x, Fin y => Fin (x * y)
  end.

(** [a / b]; a zero divisor is read as +0 *)
Definition div (a b : number) : number :=
  match a, b with
  | NaN, _ | _, NaN => NaN
  | (PInf | NInf), (PInf | NInf) => NaN
  | PInf, Fin y => signed_inf (Qle_bool 0 y)
  | NInf, Fin y => signed_inf (Qltb y 0)
  | Fin _, (PInf | NInf) => Fin 0
  | Fin x, Fin y =>
      if Qeqb y 0
      then (if Qeqb x 0 then NaN else signed_inf (Qltb 0 x))
      else Fin (x / y)
  end.

(** [a < b] *)
Definition lt (a b : number) : bool :=
  match a, b with
  | NaN, _ | _, NaN => false
  | _, NInf => false
  | PInf, _ => false
  | NInf, _ => true
  | Fin _, PInf => true
  | Fin x, Fin y => Qltb x y
  end.

(** [a <= b] *)
Definition le (a b : number) : bool :=
  match a, b with
  | NaN, _ | _, NaN => false
  | NInf, _ => true
  | _, PInf => true
  | _, NInf => false
  | PInf, _ => false
  | Fin x, Fin y => Qle_bool x y
  end.

(** [a > b] and [a >= b] *)
Definition gt (a b : number) : bool := lt b a.
Definition ge (a b : number) : bool := le b a.

(** [Math.max(a, b)] *)
Definition max (a b : number) : number :=
  match a, b with
  | NaN, _ | _, NaN => NaN
  | _, _ => if lt a b then b else a
  end.

(** ToBoolean on a number: [NaN] and zero are falsy *)
Definition truthy (a : number) : bool :=
  match a with
  | NaN => false
  | Fin x => negb (Qeqb x 0)
  | _ => true
  end.

(** [a || 0] for a number [a] *)
Definition or0 (a : number) : number := if truthy a then a else zero.

(** [a || 0] for a possibly [undefined] number *)
Definition opt_or0 (a : option number) : number :=
  match a with
  | Some v => or0 v
  | None => zero
  end.

(** [a != null] on an optional field *)
Definition notNull {A} (a : option A) : bool :=
  match a with Some _ => true | None => false end.

Definition is_fin (a : number) : bool :=
  match a with Fin _ => true | _ => false end.

Definition val (a : number) : Q :=
  match a with Fin x => x | _ => 0 end.

(** Numerical equality of two numbers as values ([NaN] is one value). *)
Definition eq (a b : number) : Prop :=
  match a, b with
  | NaN, NaN | PInf, PInf | NInf, NInf => True
  | Fin x, Fin y => x == y
  | _, _ => False
  end.

End JS.

Abbreviation number := JS.number.
Abbreviation NaN := JS.NaN.
Abbreviation Fin := JS.Fin.
Infix "=n=" := JS.eq (at level 70, no associativity).

(* ===================================================================== *)
(** * Data model (the interfaces of the source) *)
(* ===================================================================== *)

Inductive TxType : Type := BUY | SELL.

Record Transaction : Type := mkTransaction {
  tx_id : string;
  tx_date : string;
  tx_ticker : string;
  tx_type : TxType;
  tx_qty : number;
  tx_price : number;
  tx_fees : option number        (* fees?: number *)
}.

Record PriceNow : Type := mkPriceNow {
  pn_ticker : string;
  pn_price : number;
  pn_updatedAt : string
}.

Record Trigger : Type := mkTrigger {
  tr_ticker : string;
  buyPrice : option number;
  sellPrice : option number;
  trailingStopPct : option number;
  note : option string
}.

Inductive DividendType : Type := ON | PN | UNIT | BDR | ETF | OUTRO.

Record DividendEntry : Type := mkDividendEntry {
  dv_id : string;
  dv_date : string;
  dv_ticker : string;
  dv_type : DividendType;
  valuePerShare : number;
  dv_note : option string
}.

Record HistoryPoint : Type := mkHistoryPoint {
  h_date : string;
  totalValue : number
}.

Record PortfolioData : Type := mkPortfolioData {
  pf_id : string;
  pf_name : string;
  baseCurrency : string;
  transactions : list Transaction;
  prices : list PriceNow;
  triggers : list Trigger;
  dividends : list DividendEntry;
  history : list HistoryPoint
}.

Module Signal.
Inductive t : Type := BUY | SELL | HOLD | STOP.
End Signal.

Record Position : Type := mkPosition {
  ticker : string;
  qty : number;
  invested : number;
  avgPrice : number;
  lastPrice : number;
  mktValue : number;
  pl : number;
  plPct : number;
  divsTotal : number;
  divYieldOnCost : number;
  signal : Signal.t;
  trigger : option Trigger
}.

(* ===================================================================== *)
(** * JavaScript [Map] with string keys, in insertion order *)
(* ===================================================================== *)

Module JSMap.

Definition t (V : Type) : Type := list (string * V).

Definition empty {V : Type} : t V := [].

Fixpoint get {V : Type} (m : t V) (k : string) : option V :=
  match m with
  | [] => None
  | (k', v) :: m' => if String.eqb k' k then Some v else get m' k
  end.

Definition has {V : Type} (m : t V) (k : string) : bool :=
  match get m k with Some _ => true | None => false end.

(** [m.set(k, v)]: an existing key keeps its place, a new one goes last *)
Fixpoint set {V : Type} (m : t V) (k : string) (v : V) : t V :=
  match m with
  | [] => [(k, v)]
  | (k', v') :: m' =>
      if String.eqb k' k then (k', v) :: m' else (k', v') :: set m' k v
  end.

(** [new Map(entries)] *)
Definition ofEntries {V : Type} (entries : list (string * V)) : t V :=
  fold_left (fun m e => set m (fst e) (snd e)) entries empty.

Definition keys {V : Type} (m : t V) : list string := map fst m.

End JSMap.

(* ===================================================================== *)
(** * The calculation layer *)
(* ===================================================================== *)

(** [t.type === "BUY" ? t.qty : -t.qty] *)
Definition signedQty (t : Transaction) : number :=
  match tx_type t with
  | BUY => tx_qty t
  | SELL => JS.neg (tx_qty t)
  end.

Section Engine.

(** The time value of [new Date(s)]: milliseconds since the epoch, [NaN]
    for an invalid date.  Two [Date] objects are compared through it. *)
Variable DateValue : string -> number.

(** [a.localeCompare(b)]: negative, zero or positive. *)
Variable localeCompare : string -> string -> Z.

(** One turn of the loop of [shareCountAtDate]. *)
Definition shareCountStep (ticker : string) (d : number)
    (q : number) (t : Transaction) : number :=
  if negb (String.eqb (tx_ticker t) ticker) then q
  else if JS.le (DateValue (tx_date t)) d then JS.add q (signedQty t)
  else q.

Definition shareCountAtDate (transactions : list Transaction)
    (ticker dateISO : string) : number :=
  let d := DateValue dateISO in
  let q := fold_left (shareCountStep ticker d) transactions JS.zero in
  JS.max q JS.zero.

(** The transactions that [shareCountAtDate] counts: those on the ticker
    whose date is on or before the given date. *)
Definition heldOn (ticker dateISO : string) (t : Transaction) : bool :=
  String.eqb (tx_ticker t) ticker
  && JS.le (DateValue (tx_date t)) (DateValue dateISO).

(** ** [aggregatePositions] *)

(** One turn of the grouping loop: create the ticker's array when it is
    missing, then push the transaction on it. *)
Definition groupStep (m : JSMap.t (list Transaction)) (t : Transaction)
    : JSMap.t (list Transaction) :=
  let m1 := if negb (JSMap.has m (tx_ticker t))
            then JSMap.set m (tx_ticker t) [] else m in
  match JSMap.get m1 (tx_ticker t) with
  | Some l => JSMap.set m1 (tx_ticker t) (l ++ [t])
  | None => m1
  end.

Definition txByTicker (txs : list Transaction) : JSMap.t (list Transaction) :=
  fold_left groupStep txs JSMap.empty.

Definition priceMap (p : PortfolioData) : JSMap.t number :=
  JSMap.ofEntries (map (fun x => (pn_ticker x, pn_price x)) (prices p)).

Definition trigMap (p : PortfolioData) : JSMap.t Trigger :=
  JSMap.ofEntries (map (fun x => (tr_ticker x, x)) (triggers p)).

(** Dividends, with the quantity held on the payment date. *)
Definition divStep (txs : list Transaction) (m : JSMap.t number)
    (d : DividendEntry) : JSMap.t number :=
  let q := shareCountAtDate txs (dv_ticker d) (dv_date d) in
  let amt := JS.mul q (valuePerShare d) in
  JSMap.set m (dv_ticker d)
    (JS.add (JS.opt_or0 (JSMap.get m (dv_ticker d))) amt).

Definition divByTicker (p : PortfolioData) : JSMap.t number :=
  fold_left (divStep (transactions p)) (dividends p) JSMap.empty.

(** One turn of the cost-basis loop on the running [(qty, cost)]. *)
Definition costStep (st : number * number) (t : Transaction)
    : number * number :=
  let (qty, cost) := st in
  let fees := JS.opt_or0 (tx_fees t) in
  match tx_type t with
  | BUY =>
      (JS.add qty (tx_qty t),
       JS.add cost (JS.add (JS.mul (tx_qty t) (tx_price t)) fees))
  | SELL =>
      let avg := if JS.gt qty JS.zero then JS.div cost qty else JS.zero in
      (JS.sub qty (tx_qty t),
       JS.add (JS.sub cost (JS.mul avg (tx_qty t))) fees)
  end.

Definition costFold (list : list Transaction) : number * number :=
  fold_left costStep list (JS.zero, JS.zero).

(** [qty > 0 ? cost / Math.max(qty, 1) : 0] *)
Definition avgPriceOf (qty cost : number) : number :=
  if JS.gt qty JS.zero then JS.div cost (JS.max qty (Fin 1)) else JS.zero.

(** The signal of a ticker that has transactions. *)
Definition txSignal (tr : option Trigger) (lastPrice plPct : number)
    : Signal.t :=
  match tr with
  | None => Signal.HOLD
  | Some tr =>
      let s0 := Signal.HOLD in
      let s1 :=
        match buyPrice tr with
        | Some b =>
            if JS.gt lastPrice JS.zero && JS.le lastPrice b
            then Signal.BUY else s0
        | None => s0
        end in
      let s2 :=
        match sellPrice tr with
        | Some s =>
            if JS.gt lastPrice JS.zero && JS.ge lastPrice s
            then Signal.SELL else s1
        | None => s1
        end in
      match trailingStopPct tr with
      | Some k =>
          if JS.gt k JS.zero && JS.gt lastPrice JS.zero
          then (if JS.le plPct (JS.neg k) then Signal.STOP else s2)
          else s2
      | None => s2
      end
  end.

(** The body of the loop over [txByTicker]. *)
Definition positionOf (p : PortfolioData)
    (entry : string * list Transaction) : Position :=
  let (ticker, list) := entry in
  let (qty, cost) := costFold list in
  let avgPrice := avgPriceOf qty cost in
  let lastPrice := JS.opt_or0 (JSMap.get (priceMap p) ticker) in
  let mktValue := JS.mul qty lastPrice in
  let pl := JS.sub mktValue cost in
  let plPct := if JS.gt cost JS.zero
               then JS.mul (JS.div pl cost) JS.hundred else JS.zero in
  let divs := JS.opt_or0 (JSMap.get (divByTicker p) ticker) in
  let dyOnCost := if JS.gt cost JS.zero then JS.div divs cost else JS.zero in
  let tr := JSMap.get (trigMap p) ticker in
  {| ticker := ticker;
     qty := qty;
     invested := cost;
     avgPrice := avgPrice;
     lastPrice := lastPrice;
     mktValue := mktValue;
     pl := pl;
     plPct := plPct;
     divsTotal := divs;
     divYieldOnCost := dyOnCost;
     signal := txSignal tr lastPrice plPct;
     trigger := tr |}.

(** [tr?.buyPrice && price <= tr.buyPrice] and its sell counterpart. *)
Definition quoteBuyFires (tr : option Trigger) (price : number) : bool :=
  match tr with
  | Some t =>
      match buyPrice t with
      | Some b => JS.truthy b && JS.le price b
      | None => false
      end
  | None => false
  end.

Definition quoteSellFires (tr : option Trigger) (price : number) : bool :=
  match tr with
  | Some t =>
      match sellPrice t with
      | Some s => JS.truthy s && JS.ge price s
      | None => false
      end
  | None => false
  end.

(** The signal of a ticker that has a quote and no transactions. *)
Definition quoteSignal (tr : option Trigger) (price : number) : Signal.t :=
  if quoteBuyFires tr price then Signal.BUY
  else if quoteSellFires tr price then Signal.SELL
  else Signal.HOLD.

Definition quotePosition (p : PortfolioData) (pr : PriceNow) : Position :=
  let tr := find (fun t => String.eqb (tr_ticker t) (pn_ticker pr))
                 (triggers p) in
  {| ticker := pn_ticker pr;
     qty := JS.zero;
     invested := JS.zero;
     avgPrice := JS.zero;
     lastPrice := pn_price pr;
     mktValue := JS.zero;
     pl := JS.zero;
     plPct := JS.zero;
     divsTotal := JS.zero;
     divYieldOnCost := JS.zero;
     signal := quoteSignal tr (pn_price pr);
     trigger := tr |}.

(** One turn of the loop over [p.prices]. *)
Definition addQuoteOnly (p : PortfolioData) (positions : list Position)
    (pr : PriceNow) : list Position :=
  match find (fun x => String.eqb (ticker x) (pn_ticker pr)) positions with
  | Some _ => positions
  | None => positions ++ [quotePosition p pr]
  end.

(** The positions before the final sort. *)
Definition positionsUnsorted (p : PortfolioData) : list Position :=
  fold_left (addQuoteOnly p) (prices p)
    (map (positionOf p) (txByTicker (transactions p))).

(** [Array.prototype.sort] with a comparator: a stable sort.  For a
    comparator that is a total preorder, as [localeCompare] is, the stable
    sorted arrangement is unique, so insertion in order gives it. *)
Fixpoint sortInsert {A : Type} (cmp : A -> A -> Z) (x : A) (l : list A)
    : list A :=
  match l with
  | [] => [x]
  | y :: r =>
      if (cmp x y <? 0)%Z then x :: y :: r else y :: sortInsert cmp x r
  end.

Definition sortBy {A : Type} (cmp : A -> A -> Z) (l : list A) : list A :=
  fold_left (fun acc x => sortInsert cmp x acc) l [].

Definition aggregatePositions (p : PortfolioData) : list Position :=
  sortBy (fun a b => localeCompare (ticker a) (ticker b))
         (positionsUnsorted p).

End Engine.

(** ** [upsert] and [setPrice] *)

(** [arr.findIndex(f)]; [None] stands for -1. *)
Fixpoint findIndex {T : Type} (f : T -> bool) (arr : list T) : option nat :=
  match arr with
  | [] => None
  | x :: r =>
      if f x then Some O
      else match findIndex f r with
           | Some i => Some (S i)
           | None => None
           end
  end.

(** [copy[i] = next] for an index inside the array (the only use here). *)
Fixpoint setAt {T : Type} (arr : list T) (i : nat) (next : T) : list T :=
  match arr, i with
  | [], _ => []
  | _ :: r, O => next :: r
  | x :: r, S j => x :: setAt r j next
  end.

Definition upsert {T : Type} (arr : list T) (matches : T -> bool) (next : T)
    : list T :=
  match findIndex matches arr with
  | None => arr ++ [next]
  | Some i => setAt arr i next
  end.

(** [setPrice] as the state update it passes to [setData]; [updatedAt] is
    the clock reading [new Date().toISOString()]. *)
Definition setPrice (current : option PortfolioData) (updatedAt : string)
    (ticker : string) (price : number) (data : list PortfolioData)
    : list PortfolioData :=
  match current with
  | None => data
  | Some cur =>
      let now := mkPriceNow ticker price updatedAt in
      map (fun p =>
             if String.eqb (pf_id p) (pf_id cur)
             then mkPortfolioData (pf_id p) (pf_name p) (baseCurrency p)
                    (transactions p)
                    (upsert (prices p)
                       (fun x => String.eqb (pn_ticker x) ticker) now)
                    (triggers p) (dividends p) (history p)
             else p)
          data
  end.

(* ===================================================================== *)
(** * Host functions used in the examples *)
(* ===================================================================== *)

(** The engine is stated for every [DateValue] and [localeCompare].  The
    examples run it with the two instances below. *)

Definition digitOf (c : ascii) : option Z :=
  let n := Z.of_nat (nat_of_ascii c) in
  if ((48 <=? n) && (n <=? 57))%Z then Some (n - 48)%Z else None.

Fixpoint digitsValue (acc : Z) (l : list ascii) : option Z :=
  match l with
  | [] => Some acc
  | c :: r =>
      match digitOf c with
      | Some d => digitsValue (10 * acc + d)%Z r
      | None => None
      end
  end.

Definition isLeapYear (y : Z) : bool :=
  ((y mod 4 =? 0) && (negb (y mod 100 =? 0) || (y mod 400 =? 0)))%Z.

Definition daysInMonth (y m : Z) : Z :=
  if (m =? 2)%Z then (if isLeapYear y then 29 else 28)%Z
  else if ((m =? 4) || (m =? 6) || (m =? 9) || (m =? 11))%Z then 30%Z
  else 31%Z.

(** Days from 1970-01-01 to the civil date [y-m-d]. *)
Definition daysFromCivil (y m d : Z) : Z :=
  let y' := (if m <=? 2 then y - 1 else y)%Z in
  let era := (y' / 400)%Z in
  let yoe := (y' - era * 400)%Z in
  let mp := ((m + 9) mod 12)%Z in
  let doy := ((153 * mp + 2) / 5 + d - 1)%Z in
  let doe := (yoe * 365 + yoe / 4 - yoe / 100 + doy)%Z in
  (era * 146097 + doe - 719468)%Z.

(** [new Date(s)] on the date-only form [YYYY-MM-DD] of a calendar date,
    which ECMAScript reads as midnight UTC; this is the form that
    [todayISO] and the date input produce.  It also agrees with the host
    on the empty string, an invalid date.  Other strings, and days that
    the month does not have, are left to the host (which may parse them or
    roll them over); this instance reads them as invalid, and the examples
    do not use them. *)
Definition isoDateValue (s : string) : number :=
  match list_ascii_of_string s with
  | [y1; y2; y3; y4; "-"%char; m1; m2; "-"%char; d1; d2] =>
      match digitsValue 0 [y1; y2; y3; y4],
            digitsValue 0 [m1; m2], digitsValue 0 [d1; d2] with
      | Some y, Some m, Some d =>
          if ((1 <=? m) && (m <=? 12) && (1 <=? d)
              && (d <=? daysInMonth y m))%Z
          then Fin (inject_Z (daysFromCivil y m d * 86400000))
          else NaN
      | _, _, _ => NaN
      end
  | _ => NaN
  end.

(** [localeCompare] as the ordering of the code units, which is how the
    usual collations order upper-case letters and digits among themselves:
    the alphabet of the tickers. *)
Definition codeUnitCompare (a b : string) : Z :=
  match String.compare a b with
  | Lt => (-1)%Z
  | Eq => 0%Z
  | Gt => 1%Z
  end.

(* ===================================================================== *)
(** * CSV import *)
(* ===================================================================== *)

(** Strings are sequences of ASCII code units; the case maps leave every
    other unit unchanged, and the white space of [trim] and [Number] is
    the ASCII part of ECMAScript's (TAB, LF, VT, FF, CR, SP). *)

Module Str.

Definition code (c : ascii) : Z := Z.of_nat (nat_of_ascii c).

Definition isWhiteSpace (c : ascii) : bool :=
  let n := code c in (((9 <=? n) && (n <=? 13)) || (n =? 32))%Z.

Fixpoint trimStart (l : list ascii) : list ascii :=
  match l with
  | c :: r => if isWhiteSpace c then trimStart r else l
  | [] => []
  end.

Definition trimEnd (l : list ascii) : list ascii := rev (trimStart (rev l)).

(** [s.trim()] *)
Definition trim (l : list ascii) : list ascii := trimEnd (trimStart l).

Definition upperChar (c : ascii) : ascii :=
  let n := code c in
  if ((97 <=? n) && (n <=? 122))%Z
  then ascii_of_nat (nat_of_ascii c - 32) else c.

Definition lowerChar (c : ascii) : ascii :=
  let n := code c in
  if ((65 <=? n) && (n <=? 90))%Z
  then ascii_of_nat (nat_of_ascii c + 32) else c.

Definition toUpperCase (l : list ascii) : list ascii := map upperChar l.
Definition toLowerCase (l : list ascii) : list ascii := map lowerChar l.

Fixpoint eqb (a b : list ascii) : bool :=
  match a, b with
  | [], [] => true
  | x :: a', y :: b' => Ascii.eqb x y && eqb a' b'
  | _, _ => false
  end.

(** [s.split(sep)] for a one-character separator; [cur] holds the piece
    being read, reversed. *)
Fixpoint splitOn (sep : ascii) (cur : list ascii) (l : list ascii)
    : list (list ascii) :=
  match l with
  | [] => [rev cur]
  | c :: r =>
      if Ascii.eqb c sep then rev cur :: splitOn sep [] r
      else splitOn sep (c :: cur) r
  end.

Definition split (sep : ascii) (l : list ascii) : list (list ascii) :=
  splitOn sep [] l.

Definition CR : ascii := ascii_of_nat 13.
Definition LF : ascii := ascii_of_nat 10.

(** [s.split(/\r?\n/)] *)
Fixpoint splitLinesOn (cur : list ascii) (l : list ascii)
    : list (list ascii) :=
  match l with
  | [] => [rev cur]
  | c :: r =>
      if Ascii.eqb c LF then rev cur :: splitLinesOn [] r
      else if Ascii.eqb c CR then
        match r with
        | c' :: r' =>
            if Ascii.eqb c' LF then rev cur :: splitLinesOn [] r'
            else splitLinesOn (c :: cur) r
        | [] => splitLinesOn (c :: cur) r
        end
      else splitLinesOn (c :: cur) r
  end.

Definition splitLines (l : list ascii) : list (list ascii) :=
  splitLinesOn [] l.

(** ToBoolean on a string *)
Definition nonEmpty (l : list ascii) : bool :=
  match l with [] => false | _ :: _ => true end.

End Str.

(** ** [Number(s)]: ECMAScript's StringToNumber *)

Module Num.

Definition digitIn (radix : Z) (c : ascii) : option Z :=
  let n := Str.code c in
  let d := (if (48 <=? n) && (n <=? 57) then n - 48
            else if (97 <=? n) && (n <=? 102) then n - 87
            else if (65 <=? n) && (n <=? 70) then n - 55
            else radix)%Z in
  if (d <? radix)%Z then Some d else None.

(** The longest prefix of decimal digits: its value, its length, the rest. *)
Fixpoint takeDigits (acc : Z) (n : nat) (l : list ascii)
    : Z * nat * list ascii :=
  match l with
  | c :: r =>
      match digitIn 10 c with
      | Some d => takeDigits (10 * acc + d)%Z (S n) r
      | None => (acc, n, l)
      end
  | [] => (acc, n, [])
  end.

(** A non-empty string of digits of the radix, and nothing else. *)
Fixpoint radixValue (radix : Z) (acc : Z) (l : list ascii) : option Z :=
  match l with
  | [] => Some acc
  | c :: r =>
      match digitIn radix c with
      | Some d => radixValue radix (radix * acc + d)%Z r
      | None => None
      end
  end.

Definition pow10 (e : Z) : Q :=
  if (0 <=? e)%Z then inject_Z (10 ^ e) else / inject_Z (10 ^ (- e)).

(** ExponentPart, optional, up to the end of the string. *)
Definition exponentPart (l : list ascii) : option Z :=
  match l with
  | [] => Some 0%Z
  | c :: r =>
      if Ascii.eqb c "e" || Ascii.eqb c "E" then
        let (negative, ds) :=
          match r with
          | "+"%char :: r1 => (false, r1)
          | "-"%char :: r1 => (true, r1)
          | _ => (false, r)
          end in
        match takeDigits 0 0 ds with
        | (v, S _, []) => Some (if negative then (- v)%Z else v)
        | _ => None
        end
      else None
  end.

(** StrUnsignedDecimalLiteral *)
Definition unsignedDecimal (l : list ascii) : number :=
  if Str.eqb l (list_ascii_of_string "Infinity") then JS.PInf
  else
    let '(ip, ni, r1) := takeDigits 0 0 l in
    let '(fp, nf, r2) :=
      match r1 with
      | "."%char :: r => takeDigits 0 0 r
      | _ => (0%Z, O, r1)
      end in
    if (ni + nf =? 0)%nat then NaN
    else
      match exponentPart r2 with
      | Some e =>
          Fin ((inject_Z ip + inject_Z fp / pow10 (Z.of_nat nf)) * pow10 e)
      | None => NaN
      end.

(** StrDecimalLiteral *)
Definition strDecimal (l : list ascii) : number :=
  match l with
  | "+"%char :: r => unsignedDecimal r
  | "-"%char :: r => JS.neg (unsignedDecimal r)
  | _ => unsignedDecimal l
  end.

Definition ofRadix (radix : Z) (ds : list ascii) : number :=
  match radixValue radix 0 ds with
  | Some v => Fin (inject_Z v)
  | None => NaN
  end.

(** [Number(s)] for a string [s] *)
Definition ofString (s : list ascii) : number :=
  match Str.trim s with
  | [] => JS.zero
  | "0"%char :: p :: (_ :: _) as ds =>
      if Ascii.eqb p "x" || Ascii.eqb p "X" then ofRadix 16 ds
      else if Ascii.eqb p "o" || Ascii.eqb p "O" then ofRadix 8 ds
      else if Ascii.eqb p "b" || Ascii.eqb p "B" then ofRadix 2 ds
      else strDecimal (Str.trim s)
  | l => strDecimal l
  end.

(** [Number(cell || 0)] for a cell that may be [undefined] *)
Definition ofCell (cell : option (list ascii)) : number :=
  match cell with
  | Some s => if Str.nonEmpty s then ofString s else JS.zero
  | None => JS.zero
  end.

(** The first character of a numeric literal is a digit, a sign, a dot or
    the [I] of [Infinity]. *)
Definition startsNumeric (c : ascii) : bool :=
  match digitIn 10 c with
  | Some _ => true
  | None =>
      Ascii.eqb c "+" || Ascii.eqb c "-" || Ascii.eqb c "."
      || Ascii.eqb c "I"
  end.

End Num.

Section Csv.

(** [uid()]: the identifier drawn for the k-th transaction kept. *)
Variable uid : nat -> string.

(** [todayISO()], read once for the import. *)
Variable todayISO : string.

(** [header.split(",").findIndex(h => h.trim() === name)] *)
Definition idx (header : list ascii) (name : string) : option nat :=
  findIndex (fun h => Str.eqb (Str.trim h) (list_ascii_of_string name))
            (Str.split "," header).

(** [parts[i]], with [i = -1] and an index past the end giving
    [undefined]. *)
Definition part (parts : list (list ascii)) (i : option nat)
    : option (list ascii) :=
  match i with
  | Some n => nth_error parts n
  | None => None
  end.

(** [parts[i]?.trim() || dflt] *)
Definition trimmedOr (cell : option (list ascii)) (dflt : list ascii)
    : list ascii :=
  match cell with
  | Some s => if Str.nonEmpty (Str.trim s) then Str.trim s else dflt
  | None => dflt
  end.

Definition typeOfCell (cell : option (list ascii)) : TxType :=
  match cell with
  | Some s =>
      if Str.eqb (Str.toUpperCase (Str.trim s)) (list_ascii_of_string "SELL")
      then SELL else BUY
  | None => BUY
  end.

(** The body of the loop over the data rows; [None] is [continue]. *)
Definition rowToTransaction (header : list ascii) (id : string)
    (r : list ascii) : option Transaction :=
  let parts := Str.split "," r in
  let date := trimmedOr (part parts (idx header "date"))
                        (list_ascii_of_string todayISO) in
  let ticker := Str.toUpperCase
                  (trimmedOr (part parts (idx header "ticker")) []) in
  let type := typeOfCell (part parts (idx header "type")) in
  let qty := Num.ofCell (part parts (idx header "qty")) in
  let price := Num.ofCell (part parts (idx header "price")) in
  let fees := match idx header "fees" with
              | Some _ => Num.ofCell (part parts (idx header "fees"))
              | None => JS.zero
              end in
  if negb (Str.nonEmpty ticker) then None
  else Some (mkTransaction id (string_of_list_ascii date)
               (string_of_list_ascii ticker) type qty price (Some fees)).

Definition importStep (header : list ascii) (out : list Transaction)
    (r : list ascii) : list Transaction :=
  match rowToTransaction header (uid (List.length out)) r with
  | Some t => out ++ [t]
  | None => out
  end.

(** The rows of the text: trimmed lines, blank ones dropped. *)
Definition csvRows (csv : string) : list (list ascii) :=
  filter Str.nonEmpty
    (map Str.trim (Str.splitLines (list_ascii_of_string csv))).

Definition csvToTransactions (csv : string) : list Transaction :=
  match csvRows csv with
  | [] => []
  | h :: rows => fold_left (importStep (Str.toLowerCase h)) rows []
  end.

End Csv.

(* ===================================================================== *)
(** * Vocabulary of the statements *)
(* ===================================================================== *)

Definition isNaN (a : number) : bool :=
  match a with NaN => true | _ => false end.

(** [t.qty * t.price + fees], with [fees = t.fees || 0] *)
Definition buyCost (t : Transaction) : number :=
  JS.add (JS.mul (tx_qty t) (tx_price t)) (JS.opt_or0 (tx_fees t)).

Definition tickerIs (tk : string) (t : Transaction) : bool :=
  String.eqb (tx_ticker t) tk.

Definition nonEmptyOpt {A : Type} (l : list A) : option (list A) :=
  match l with [] => None | _ :: _ => Some l end.

(** The three trigger conditions, in the words of the specification. *)
Definition buyMatches (tr : option Trigger) (lastPrice : number) : bool :=
  match tr with
  | Some t =>
      match buyPrice t with
      | Some b => JS.gt lastPrice JS.zero && JS.le lastPrice b
      | None => false
      end
  | None => false
  end.

Definition sellMatches (tr : option Trigger) (lastPrice : number) : bool :=
  match tr with
  | Some t =>
      match sellPrice t with
      | Some s => JS.gt lastPrice JS.zero && JS.ge lastPrice s
      | None => false
      end
  | None => false
  end.

Definition stopMatches (tr : option Trigger) (lastPrice plPct : number)
    : bool :=
  match tr with
  | Some t =>
      match trailingStopPct t with
      | Some k =>
          JS.gt k JS.zero && JS.gt lastPrice JS.zero
          && JS.le plPct (JS.neg k)
      | None => false
      end
  | None => false
  end.

(** The signal by precedence: STOP over SELL over BUY over HOLD. *)
Definition signalByPrecedence (tr : option Trigger)
    (lastPrice plPct : number) : Signal.t :=
  if stopMatches tr lastPrice plPct then Signal.STOP
  else if sellMatches tr lastPrice then Signal.SELL
  else if buyMatches tr lastPrice then Signal.BUY
  else Signal.HOLD.

(** A threshold that is set to zero. *)
Definition isZero (a : option number) : bool :=
  match a with
  | Some (Fin q) => JS.Qeqb q 0
  | _ => false
  end.

(** A threshold that is unset, or set to a falsy number. *)
Definition zeroOrUnset (a : option number) : bool :=
  match a with
  | Some v => negb (JS.truthy v)
  | None => true
  end.

(* ===================================================================== *)
(** * Example data *)
(* ===================================================================== *)

(** Two transactions on one ticker: 100 bought on 1 January 2024, 50 of
    them sold on 1 February 2024. *)
Definition txBuy100 : Transaction :=
  mkTransaction "t1" "2024-01-01" "PETR4" BUY
    (Fin 100) (Fin (3750 # 100)) (Some (Fin 0)).

Definition txSell50 : Transaction :=
  mkTransaction "t2" "2024-02-01" "PETR4" SELL
    (Fin 50) (Fin (4020 # 100)) (Some (Fin (110 # 100))).

(** The same sale without fees. *)
Definition txSell50NoFees : Transaction :=
  mkTransaction "t3" "2024-02-01" "PETR4" SELL
    (Fin 50) (Fin (4020 # 100)) None.

(** The scenario of the specification: the two transactions above and a
    quote of 38.10. *)
Definition scenario : PortfolioData :=
  mkPortfolioData "p0" "Cenario" "BRL"
    [txBuy100; txSell50]
    [ mkPriceNow "PETR4" (Fin (3810 # 100)) "2024-02-02T12:00:00.000Z" ]
    [] [] [].

(** The demonstration portfolio that the component creates on first use,
    dated 10 January 2025. *)
Definition demo : PortfolioData :=
  mkPortfolioData "p1" "Portfolio Principal" "BRL"
    [ mkTransaction "a1" "2025-01-10" "PETR4" BUY
        (Fin 100) (Fin (375 # 10)) None;
      mkTransaction "a2" "2025-01-10" "VALE3" BUY
        (Fin 20) (Fin (622 # 10)) None ]
    [ mkPriceNow "PETR4" (Fin (381 # 10)) "2025-01-10T12:00:00.000Z";
      mkPriceNow "VALE3" (Fin (618 # 10)) "2025-01-10T12:00:00.000Z" ]
    [ mkTrigger "PETR4" (Some (Fin 37)) (Some (Fin 42)) (Some (Fin 8))
        (Some "Faixa tatica"%string);
      mkTrigger "VALE3" (Some (Fin 60)) (Some (Fin 68)) None None ]
    [ mkDividendEntry "d1" "2025-01-10" "PETR4" PN (Fin (75 # 100)) None ]
    [].

(** The demonstration portfolio with a quote for a ticker that was never
    traded. *)
Definition demoWatch : PortfolioData :=
  mkPortfolioData "p1" "Portfolio Principal" "BRL"
    (transactions demo)
    (prices demo
     ++ [mkPriceNow "ITUB4" (Fin 30) "2025-01-10T12:00:00.000Z"])
    (triggers demo
     ++ [mkTrigger "ITUB4" (Some (Fin 0)) (Some (Fin 0)) (Some (Fin 5))
           None])
    (dividends demo) [].

(** Half a share bought at 10. *)
Definition halfShare : PortfolioData :=
  mkPortfolioData "p2" "Fracionario" "BRL"
    [ mkTransaction "b1" "2024-03-01" "FRAC3" BUY
        (Fin (1 # 2)) (Fin 10) None ]
    [] [] [] [].

(** A trigger on a ticker that has neither transactions nor a quote. *)
Definition triggerOnly : PortfolioData :=
  mkPortfolioData "p3" "Monitoramento" "BRL"
    [] []
    [ mkTrigger "VALE3" (Some (Fin 60)) (Some (Fin 68)) None None ]
    [] [].

(** One share bought at 100 and quoted at 50, with a sell threshold of
    zero and a trailing stop of 10 per cent. *)
Definition zeroSellWithStop : PortfolioData :=
  mkPortfolioData "p4" "Gatilhos" "BRL"
    [ mkTransaction "c1" "2024-03-01" "ABEV3" BUY (Fin 1) (Fin 100) None ]
    [ mkPriceNow "ABEV3" (Fin 50) "2024-03-02T12:00:00.000Z" ]
    [ mkTrigger "ABEV3" None (Some (Fin 0)) (Some (Fin 10)) None ]
    [] [].

(** The same, with a sell threshold of zero alone. *)
Definition zeroSellOnly : PortfolioData :=
  mkPortfolioData "p5" "Gatilhos" "BRL"
    [ mkTransaction "c1" "2024-03-01" "ABEV3" BUY (Fin 1) (Fin 100) None ]
    [ mkPriceNow "ABEV3" (Fin 50) "2024-03-02T12:00:00.000Z" ]
    [ mkTrigger "ABEV3" None (Some (Fin 0)) None None ]
    [] [].

(** One share bought at 100 and quoted at 50, with a buy threshold of 60
    and a sell threshold of 40: both match. *)
Definition bothThresholds : PortfolioData :=
  mkPortfolioData "p6" "Gatilhos" "BRL"
    [ mkTransaction "c1" "2024-03-01" "ABEV3" BUY (Fin 1) (Fin 100) None ]
    [ mkPriceNow "ABEV3" (Fin 50) "2024-03-02T12:00:00.000Z" ]
    [ mkTrigger "ABEV3" (Some (Fin 60)) (Some (Fin 40)) None None ]
    [] [].

(** The same with a trailing stop of 10 per cent: all three match. *)
Definition allThreeThresholds : PortfolioData :=
  mkPortfolioData "p7" "Gatilhos" "BRL"
    [ mkTransaction "c1" "2024-03-01" "ABEV3" BUY (Fin 1) (Fin 100) None ]
    [ mkPriceNow "ABEV3" (Fin 50) "2024-03-02T12:00:00.000Z" ]
    [ mkTrigger "ABEV3" (Some (Fin 60)) (Some (Fin 40)) (Some (Fin 10))
        None ]
    [] [].

(** The position that the engine computes for a traded ticker. *)
Definition tradedPosition (p : PortfolioData) (tk : string) : Position :=
  positionOf isoDateValue p
    (tk, filter (tickerIs tk) (transactions p)).

Definition quoteITUB4 : PriceNow :=
  mkPriceNow "ITUB4" (Fin 30) "2025-01-10T12:00:00.000Z".

Definition newline : string := String Str.LF EmptyString.

(** A CSV text whose only data row has the text [abc] as quantity and
    [x] as fees. *)
Definition csvWithTextInNumbers : string :=
  ("date,ticker,type,qty,price,fees" ++ newline
   ++ "2024-01-01,PETR4,BUY,abc,10,x")%string.

(** A CSV text whose only data row leaves the quantity empty and has no
    fees cell. *)
Definition csvWithEmptyNumbers : string :=
  ("date,ticker,type,qty,price,fees" ++ newline
   ++ "2024-01-01,PETR4,BUY,,10")%string.

Definition exampleUid (k : nat) : string := "id"%string.

From Stdlib Require Import Sorting.Sorted.

(* ===================================================================== *)
(** * The component: state updates and derived figures *)
(* ===================================================================== *)

(** [{ ...p, transactions: txs }] and [{ ...p, triggers: trs }] *)
Definition withTransactions (p : PortfolioData) (txs : list Transaction)
    : PortfolioData :=
  mkPortfolioData (pf_id p) (pf_name p) (baseCurrency p) txs (prices p)
    (triggers p) (dividends p) (history p).

Definition withTriggers (p : PortfolioData) (trs : list Trigger)
    : PortfolioData :=
  mkPortfolioData (pf_id p) (pf_name p) (baseCurrency p) (transactions p)
    (prices p) trs (dividends p) (history p).

(** [d.map((p) => (p.id === current.id ? f(p) : p))] *)
Definition updateCurrent (cur : PortfolioData)
    (f : PortfolioData -> PortfolioData) (data : list PortfolioData)
    : list PortfolioData :=
  map (fun p => if String.eqb (pf_id p) (pf_id cur) then f p else p) data.

(** [addTx]: [newId] is the identifier that [uid()] draws; the other
    fields come from [tx]. *)
Definition addTx (current : option PortfolioData) (newId : string)
    (tx : Transaction) (data : list PortfolioData) : list PortfolioData :=
  match current with
  | None => data
  | Some cur =>
      let n := mkTransaction newId (tx_date tx) (tx_ticker tx) (tx_type tx)
                 (tx_qty tx) (tx_price tx) (tx_fees tx) in
      updateCurrent cur
        (fun p => withTransactions p (transactions p ++ [n])) data
  end.

(** [removeTx] *)
Definition removeTx (current : option PortfolioData) (id : string)
    (data : list PortfolioData) : list PortfolioData :=
  match current with
  | None => data
  | Some cur =>
      updateCurrent cur
        (fun p => withTransactions p
                    (filter (fun t => negb (String.eqb (tx_id t) id))
                            (transactions p)))
        data
  end.

(** A [Partial<Trigger>]: for each key, [None] when the object does not
    have it; a threshold or note that is present may hold [undefined]. *)
Record TriggerPatch : Type := mkTriggerPatch {
  pt_ticker : option string;
  pt_buyPrice : option (option number);
  pt_sellPrice : option (option number);
  pt_trailingStopPct : option (option number);
  pt_note : option (option string)
}.

(** One key of [{ ...base, ...patch }] *)
Definition spreadKey {A : Type} (base : A) (patch : option A) : A :=
  match patch with
  | Some v => v
  | None => base
  end.

(** [{ ...base, ...tr }] *)
Definition spreadTrigger (base : Trigger) (tr : TriggerPatch) : Trigger :=
  {| tr_ticker := spreadKey (tr_ticker base) (pt_ticker tr);
     buyPrice := spreadKey (buyPrice base) (pt_buyPrice tr);
     sellPrice := spreadKey (sellPrice base) (pt_sellPrice tr);
     trailingStopPct :=
       spreadKey (trailingStopPct base) (pt_trailingStopPct tr);
     note := spreadKey (note base) (pt_note tr) |}.

(** [setTrigger]: the base is read from [current], the list that is
    updated is the one of the state. *)
Definition setTrigger (current : option PortfolioData) (tick : string)
    (tr : TriggerPatch) (data : list PortfolioData) : list PortfolioData :=
  match current with
  | None => data
  | Some cur =>
      let base :=
        match find (fun t => String.eqb (tr_ticker t) tick) (triggers cur)
        with
        | Some found => found        (* { ticker: tick, ...found } *)
        | None => mkTrigger tick None None None None
        end in
      let next := spreadTrigger base tr in
      updateCurrent cur
        (fun p => withTriggers p
                    (upsert (triggers p)
                       (fun x => String.eqb (tr_ticker x) tick) next))
        data
  end.

(** The object that [TriggerForm.submit] passes: the three thresholds and
    the note are always keys of it, an empty input as [undefined]. *)
Definition triggerFormPatch (buy sell stop : option number) (nt : string)
    : TriggerPatch :=
  {| pt_ticker := None;
     pt_buyPrice := Some buy;
     pt_sellPrice := Some sell;
     pt_trailingStopPct := Some stop;
     pt_note := Some (Some nt) |}.

(** [TriggerForm.submit] *)
Definition triggerFormSubmit (current : option PortfolioData) (sel : string)
    (buy sell stop : option number) (nt : string)
    (data : list PortfolioData) : list PortfolioData :=
  if String.eqb sel "" then data
  else setTrigger current sel (triggerFormPatch buy sell stop nt) data.

(** [positions.filter((p) => p.signal !== "HOLD")] *)
Definition triggerSignals (positions : list Position) : list Position :=
  filter (fun p => match signal p with Signal.HOLD => false | _ => true end)
         positions.

(** The total of one row of the dividend history:
    [shareCountAtDate(...) * d.valuePerShare]. *)
Definition ledgerTotal (DateValue : string -> number)
    (txs : list Transaction) (d : DividendEntry) : number :=
  JS.mul (shareCountAtDate DateValue txs (dv_ticker d) (dv_date d))
         (valuePerShare d).

(* ===================================================================== *)
(** * Further vocabulary and example data *)
(* ===================================================================== *)

Definition dividendIs (tk : string) (d : DividendEntry) : bool :=
  String.eqb (dv_ticker d) tk.

Definition quoteIs (tk : string) (q : PriceNow) : bool :=
  String.eqb (pn_ticker q) tk.

Definition triggerIs (tk : string) (t : Trigger) : bool :=
  String.eqb (tr_ticker t) tk.

(** A character that is not a lower-case ASCII letter. *)
Definition notLower (c : ascii) : bool :=
  negb ((97 <=? Str.code c) && (Str.code c <=? 122))%Z.

(** One share of another ticker bought in the scenario's portfolio. *)
Definition scenarioPlusOther : PortfolioData :=
  mkPortfolioData "p0" "Cenario" "BRL"
    (mkTransaction "o1" "2024-01-20" "VALE3" BUY (Fin 1) (Fin 60) None
     :: transactions scenario)
    (prices scenario) [] [] [].

(** A sale of the whole of the 100 shares, with fees of 1.10. *)
Definition txSell100 : Transaction :=
  mkTransaction "t4" "2024-02-01" "PETR4" SELL
    (Fin 100) (Fin (4020 # 100)) (Some (Fin (110 # 100))).

(** A quote of 50 with a buy threshold of 60 and a sell threshold of 40,
    for a ticker that was never traded. *)
Definition watchBothThresholds : PortfolioData :=
  mkPortfolioData "p8" "Monitoramento" "BRL"
    []
    [ mkPriceNow "ABEV3" (Fin 50) "2024-03-02T12:00:00.000Z" ]
    [ mkTrigger "ABEV3" (Some (Fin 60)) (Some (Fin 40)) None None ]
    [] [].

(** [{ ...p, prices: prs }] *)
Definition withPrices (p : PortfolioData) (prs : list PriceNow)
    : PortfolioData :=
  mkPortfolioData (pf_id p) (pf_name p) (baseCurrency p) (transactions p)
    prs (triggers p) (dividends p) (history p).

(** The scenario's portfolio with two dividends on its ticker, one paid
    while 100 shares were held and one after the sale of 50. *)
Definition scenarioWithDividends : PortfolioData :=
  mkPortfolioData "p0" "Cenario" "BRL"
    (transactions scenario) (prices scenario) []
    [ mkDividendEntry "d1" "2024-01-15" "PETR4" PN (Fin (75 # 100)) None;
      mkDividendEntry "d2" "2024-03-01" "PETR4" PN (Fin (50 # 100)) None ]
    [].

(** A list of triggers with two entries for one ticker. *)
Definition twoTriggers : list Trigger :=
  [ mkTrigger "PETR4" (Some (Fin 37)) None None None;
    mkTrigger "VALE3" (Some (Fin 60)) None None None;
    mkTrigger "PETR4" None (Some (Fin 42)) None None ].

(** A purchase as the transaction form hands it over, before it has an
    identifier. *)
Definition txDraft : Transaction :=
  mkTransaction "" "2025-01-11" "ITUB4" BUY (Fin 10) (Fin 30) (Some (Fin 0)).

(** A CSV text without a fees column, with a blank line, a row without a
    ticker and a row in lower case. *)
Definition csvWithoutFees : string :=
  ("date,ticker,type,qty,price" ++ newline
   ++ "2024-01-01,petr4,buy,100,37.5" ++ newline
   ++ newline
   ++ "2024-01-02,,buy,1,1" ++ newline
   ++ "2024-02-01, vale3 ,SELL,20,62.2")%string.

Definition numberedUid (k : nat) : string :=
  match k with
  | O => "id0"%string
  | S O => "id1"%string
  | _ => "idn"%string
  end.

(* ===================================================================== *)
(** * Sums in stored order, and the cost-basis loop on binary64 *)
(* ===================================================================== *)

(** The sum that a loop [s += x] accumulates from 0, in the order of the
    list. *)
Definition sumInOrder (l : list number) : number :=
  fold_left JS.add l JS.zero.

(** [qty * price + fees] with absent fees read as 0 and fees that are
    present read as they are. *)
Definition costAsStated (t : Transaction) : number :=
  JS.add (JS.mul (tx_qty t) (tx_price t))
         (match tx_fees t with
          | Some f => f
          | None => JS.zero
          end).

(** A CSV text whose only data row has the text [x] as fees. *)
Definition csvWithTextFees : string :=
  ("date,ticker,type,qty,price,fees" ++ newline
   ++ "2024-01-01,PETR4,BUY,1,10,x")%string.

(** A portfolio whose transactions were imported from that text. *)
Definition importedWithTextFees : PortfolioData :=
  mkPortfolioData "p9" "Importado" "BRL"
    (csvToTransactions exampleUid "2025-01-10" csvWithTextFees)
    [] [] [] [].

(** Three purchases of one ticker, with fees, without a fees field and
    with fees that are not a number, among a purchase of another ticker. *)
Definition threeBuys : PortfolioData :=
  mkPortfolioData "p10" "Compras" "BRL"
    [ mkTransaction "e1" "2024-01-01" "PETR4" BUY
        (Fin 100) (Fin (3750 # 100)) (Some (Fin (110 # 100)));
      mkTransaction "e2" "2024-01-02" "VALE3" BUY
        (Fin 20) (Fin (622 # 10)) None;
      mkTransaction "e3" "2024-01-03" "PETR4" BUY
        (Fin (5 # 10)) (Fin 38) None;
      mkTransaction "e4" "2024-01-04" "PETR4" BUY
        (Fin 10) (Fin (399 # 10)) (Some NaN) ]
    [] [] [] [].

From Stdlib Require Floats Uint63.

(** The loop of lines 123-135 on the binary64 numbers of the host. *)
Module B64.

Import Floats Uint63.

Record Tx : Type := mkTx {
  kind : TxType;
  qty : float;
  price : float;
  fees : option float
}.

Definition isNaN (x : float) : bool := negb (PrimFloat.eqb x x).

(** [x || 0] *)
Definition or0 (x : float) : float :=
  if isNaN x || PrimFloat.eqb x PrimFloat.zero then PrimFloat.zero else x.

Definition opt_or0 (x : option float) : float :=
  match x with
  | Some v => or0 v
  | None => PrimFloat.zero
  end.

Definition costStep (st : float * float) (t : Tx) : float * float :=
  let (q, c) := st in
  let f := opt_or0 (fees t) in
  match kind t with
  | BUY =>
      (PrimFloat.add q (qty t),
       PrimFloat.add c (PrimFloat.add (PrimFloat.mul (qty t) (price t)) f))
  | SELL =>
      let avg := if PrimFloat.ltb PrimFloat.zero q
                 then PrimFloat.div c q else PrimFloat.zero in
      (PrimFloat.sub q (qty t),
       PrimFloat.add (PrimFloat.sub c (PrimFloat.mul avg (qty t))) f)
  end.

Definition costFold (l : list Tx) : float * float :=
  fold_left costStep l (PrimFloat.zero, PrimFloat.zero).

(** The binary64 value of the decimal [n / d] for two small integers:
    what the host reads from the literal. *)
Definition dec (n d : Z) : float :=
  PrimFloat.div (PrimFloat.of_uint63 (Uint63.of_Z n))
                (PrimFloat.of_uint63 (Uint63.of_Z d)).

(** [cost / qty] of a running state *)
Definition average (st : float * float) : float :=
  PrimFloat.div (snd st) (fst st).

End B64.

(** Three shares bought at 10.01, and the sale of one of them without
    fees. *)
Definition buy3at1001 : B64.Tx :=
  B64.mkTx BUY (B64.dec 3 1) (B64.dec 1001 100) None.

Definition sell1NoFees : B64.Tx :=
  B64.mkTx SELL (B64.dec 1 1) (B64.dec 11 1) None.

(** One share bought at 0.1, at 0.2 and at 0.3. *)
Definition buy1at (n d : Z) : B64.Tx :=
  B64.mkTx BUY (B64.dec 1 1) (B64.dec n d) None.

(* --------------------------------------------------------------------- *)
(** ** Facts on numbers *)
(* --------------------------------------------------------------------- *)

Lemma Qltb_lt (x y : Q) : JS.Qltb x y = true <-> x < y.
Proof.
  unfold JS.Qltb. rewrite negb_true_iff.
  split; intro H.
  - apply Qnot_le_lt. intro L. apply Qle_bool_iff in L. congruence.
  - destruct (Qle_bool y x) eqn:E; [|reflexivity].
    apply Qle_bool_iff in E. lra.
Qed.

Lemma Qltb_ge (x y : Q) : JS.Qltb x y = false <-> y <= x.
Proof.
  unfold JS.Qltb. rewrite negb_false_iff. apply Qle_bool_iff.
Qed.

Lemma Qeqb_eq (x y : Q) : JS.Qeqb x y = true <-> x == y.
Proof. apply Qeq_bool_iff. Qed.


Lemma n_eq_refl (a : number) : a =n= a.
Proof. destruct a; simpl; auto; reflexivity. Qed.

Lemma n_eq_sym (a b : number) : a =n= b -> b =n= a.
Proof. destruct a, b; simpl; auto. intro H; symmetry; exact H. Qed.

Lemma n_eq_trans (a b c : number) : a =n= b -> b =n= c -> a =n= c.
Proof.
  destruct a, b, c; simpl; auto; try contradiction.
  intros H1 H2; rewrite H1; exact H2.
Qed.

Lemma n_eq_of_eq (a b : number) : a = b -> a =n= b.
Proof. intros ->. apply n_eq_refl. Qed.

Lemma add_compat (a a' b b' : number) :
  a =n= a' -> b =n= b' -> JS.add a b =n= JS.add a' b'.
Proof.
  destruct a, a', b, b'; simpl; auto; try contradiction.
  intros H1 H2. rewrite H1, H2. reflexivity.
Qed.

Lemma add_zero_l (a : number) : JS.add JS.zero a =n= a.
Proof. destruct a; simpl; auto. ring. Qed.

Lemma add_zero_r (a : number) : JS.add a JS.zero =n= a.
Proof. destruct a; simpl; auto. ring. Qed.

Lemma lt_compat (a a' b b' : number) :
  a =n= a' -> b =n= b' -> JS.lt a b = JS.lt a' b'.
Proof.
  destruct a, a', b, b'; simpl; auto; try contradiction.
  intros H1 H2.
  destruct (JS.Qltb q q1) eqn:E1, (JS.Qltb q0 q2) eqn:E2; auto.
  - apply Qltb_lt in E1. apply Qltb_ge in E2. lra.
  - apply Qltb_lt in E2. apply Qltb_ge in E1. lra.
Qed.

Lemma max_compat (a a' b b' : number) :
  a =n= a' -> b =n= b' -> JS.max a b =n= JS.max a' b'.
Proof.
  intros H1 H2.
  pose proof (lt_compat _ _ _ _ H1 H2) as L.
  destruct a, a', b, b'; simpl in *; auto; try contradiction.
  rewrite L. destruct (JS.Qltb q0 q2); simpl; auto.
Qed.

(** [Math.max(a, 0)] is never below zero, whatever [a] is. *)
Lemma max_zero_not_neg (a : number) : JS.lt (JS.max a JS.zero) JS.zero = false.
Proof.
  destruct a; simpl; auto.
  destruct (JS.Qltb q 0) eqn:E; simpl; auto.
Qed.

Lemma le_trans (a b c : number) :
  JS.le a b = true -> JS.le b c = true -> JS.le a c = true.
Proof.
  destruct a, b, c; simpl; auto; try discriminate.
  rewrite !Qle_bool_iff. intros; lra.
Qed.

Lemma add_NaN_r (a : number) : JS.add a NaN = NaN.
Proof. destruct a; reflexivity. Qed.

Lemma fold_add_from_NaN (l : list number) : fold_left JS.add l NaN = NaN.
Proof. induction l as [|x l IH]; simpl; [reflexivity | exact IH]. Qed.

(** A [NaN] among the terms makes the accumulated sum [NaN]. *)
Lemma fold_add_with_NaN (l : list number) :
  In NaN l -> forall acc : number, fold_left JS.add l acc = NaN.
Proof.
  induction l as [|x l IH]; intros H acc; simpl; [destruct H|].
  destruct H as [-> | H].
  - rewrite add_NaN_r. apply fold_add_from_NaN.
  - apply IH. exact H.
Qed.

(** Finite terms accumulate to a finite sum. *)
Lemma fold_add_finite (l : list number) :
  (forall x, In x l -> JS.is_fin x = true) ->
  forall a : Q, exists b : Q, fold_left JS.add l (Fin a) = Fin b.
Proof.
  induction l as [|x l IH]; intros H a; simpl.
  - exists a. reflexivity.
  - pose proof (H x (or_introl eq_refl)) as Hx.
    destruct x as [| | |y]; try discriminate. simpl.
    apply IH. intros z Hz. apply H. right. exact Hz.
Qed.

Lemma max_fin_zero_ge (b : Q) :
  JS.ge (JS.max (Fin b) JS.zero) JS.zero = true.
Proof.
  unfold JS.ge. simpl. destruct (JS.Qltb b 0) eqn:E; simpl.
  - reflexivity.
  - apply Qle_bool_iff. apply Qltb_ge in E. exact E.
Qed.

(* ===================================================================== *)
(** * [shareCountAtDate] *)
(* ===================================================================== *)

Lemma le_refl_valid (a : number) : JS.le a a = negb (isNaN a).
Proof.
  destruct a; simpl; auto.
  apply Qle_bool_iff. lra.
Qed.

Section ShareCount.

Variable DateValue : string -> number.

(** The loop adds, to what it starts from and in stored order, +qty for
    each BUY and -qty for each SELL that [heldOn] selects. *)
Lemma shareCount_loop_in_order (tk d : string) (txs : list Transaction) :
  forall acc : number,
    fold_left (shareCountStep DateValue tk (DateValue d)) txs acc
    = fold_left JS.add
        (map (fun t => match tx_type t with
                       | BUY => tx_qty t
                       | SELL => JS.neg (tx_qty t)
                       end)
             (filter (heldOn DateValue tk d) txs))
        acc.
Proof.
  induction txs as [|t txs IH]; intro acc; simpl; [reflexivity|].
  unfold shareCountStep at 2. unfold heldOn at 1.
  destruct (String.eqb (tx_ticker t) tk); simpl; [|apply IH].
  destruct (JS.le (DateValue (tx_date t)) (DateValue d)); simpl; apply IH.
Qed.

(** C4, as the code has it.  [shareCountAtDate] returns [Math.max(s, 0)],
    where [s] is the sum, accumulated from 0 in stored order, of +qty for
    each BUY and -qty for each SELL among exactly the transactions on the
    ticker dated on or before the date; a transaction on the ticker counts
    at its own (valid) date, so equal dates are included.  The result is
    never below zero; it is at least zero when the counted quantities are
    finite, and it is [NaN] when one of them is [NaN]. *)
Theorem shareCountAtDate_signed_sum_clamped
    (txs : list Transaction) (tk d : string) :
  shareCountAtDate DateValue txs tk d
  = JS.max
      (sumInOrder
         (map (fun t => match tx_type t with
                        | BUY => tx_qty t
                        | SELL => JS.neg (tx_qty t)
                        end)
              (filter (heldOn DateValue tk d) txs)))
      JS.zero
  /\ (forall t : Transaction,
        heldOn DateValue tk d t
        = String.eqb (tx_ticker t) tk
          && JS.le (DateValue (tx_date t)) (DateValue d))
  /\ (forall t : Transaction,
        heldOn DateValue (tx_ticker t) (tx_date t) t
        = negb (isNaN (DateValue (tx_date t))))
  /\ JS.lt (shareCountAtDate DateValue txs tk d) JS.zero = false
  /\ ((forall t, In t txs -> heldOn DateValue tk d t = true ->
                 JS.is_fin (tx_qty t) = true) ->
      JS.ge (shareCountAtDate DateValue txs tk d) JS.zero = true)
  /\ ((exists t, In t txs /\ heldOn DateValue tk d t = true
                 /\ tx_qty t = NaN) ->
      shareCountAtDate DateValue txs tk d = NaN).
Proof.
  assert (E : shareCountAtDate DateValue txs tk d
              = JS.max
                  (sumInOrder
                     (map (fun t => match tx_type t with
                                    | BUY => tx_qty t
                                    | SELL => JS.neg (tx_qty t)
                                    end)
                          (filter (heldOn DateValue tk d) txs)))
                  JS.zero).
  { unfold shareCountAtDate, sumInOrder.
    rewrite shareCount_loop_in_order. reflexivity. }
  split; [exact E|].
  split; [reflexivity|].
  split.
  { intro t. unfold heldOn. rewrite String.eqb_refl. simpl.
    apply le_refl_valid. }
  split; [apply max_zero_not_neg|].
  split.
  - intro Hfin. rewrite E. unfold sumInOrder, JS.zero.
    destruct (@fold_add_finite
                (map (fun t => match tx_type t with
                               | BUY => tx_qty t
                               | SELL => JS.neg (tx_qty t)
                               end)
                     (filter (heldOn DateValue tk d) txs))) with (a := 0)
      as [b Hb].
    + intros x Hx. apply in_map_iff in Hx. destruct Hx as (t & <- & Ht).
      apply filter_In in Ht. destruct Ht as [Hin Hheld].
      pose proof (Hfin t Hin Hheld) as Hq.
      destruct (tx_qty t); try discriminate.
      destruct (tx_type t); reflexivity.
    + rewrite Hb. apply max_fin_zero_ge.
  - intros (t & Hin & Hheld & Hq). rewrite E. unfold sumInOrder.
    rewrite fold_add_with_NaN; [reflexivity|].
    apply in_map_iff. exists t. split.
    + rewrite Hq. destruct (tx_type t); reflexivity.
    + apply filter_In. auto.
Qed.

(** Monotonicity of the two loops run side by side. *)
Lemma shareCount_loops_ordered (tk d1 d2 : string)
    (Hd : JS.le (DateValue d1) (DateValue d2) = true)
    (txs : list Transaction) :
  (forall t, In t txs -> tx_ticker t = tk -> JS.is_fin (tx_qty t) = true) ->
  (forall t, In t txs ->
     heldOn DateValue tk d2 t = true -> heldOn DateValue tk d1 t = false ->
     tx_type t = BUY /\ JS.le JS.zero (tx_qty t) = true) ->
  forall x1 x2 : Q, x1 <= x2 ->
  exists y1 y2 : Q,
    fold_left (shareCountStep DateValue tk (DateValue d1)) txs (Fin x1)
      = Fin y1
    /\ fold_left (shareCountStep DateValue tk (DateValue d2)) txs (Fin x2)
      = Fin y2
    /\ y1 <= y2.
Proof.
  induction txs as [|t txs IH]; intros Hfin Hbuy x1 x2 Hx; simpl.
  - exists x1, x2. auto.
  - assert (Hfin' : forall t0, In t0 txs -> tx_ticker t0 = tk ->
                      JS.is_fin (tx_qty t0) = true)
      by (intros; apply Hfin; simpl; auto).
    assert (Hbuy' : forall t0, In t0 txs ->
              heldOn DateValue tk d2 t0 = true ->
              heldOn DateValue tk d1 t0 = false ->
              tx_type t0 = BUY /\ JS.le JS.zero (tx_qty t0) = true)
      by (intros; apply Hbuy; simpl; auto).
    specialize (Hfin t (or_introl eq_refl)).
    specialize (Hbuy t (or_introl eq_refl)).
    unfold shareCountStep at 2 4. unfold heldOn in Hbuy.
    destruct (String.eqb (tx_ticker t) tk) eqn:Etk; simpl in *.
    + apply String.eqb_eq in Etk. specialize (Hfin Etk).
      destruct (tx_qty t) as [| | |q] eqn:Eq; try discriminate.
      destruct (JS.le (DateValue (tx_date t)) (DateValue d1)) eqn:E1.
      * rewrite (le_trans _ _ _ E1 Hd).
        unfold signedQty. rewrite Eq.
        destruct (tx_type t); simpl; apply IH; auto; lra.
      * destruct (JS.le (DateValue (tx_date t)) (DateValue d2)) eqn:E2.
        -- destruct (Hbuy eq_refl eq_refl) as [Hb Hq].
           unfold signedQty. rewrite Eq, Hb. simpl.
           simpl in Hq. apply Qle_bool_iff in Hq.
           apply IH; auto; lra.
        -- apply IH; auto.
    + apply IH; auto.
Qed.

(** C5, as the code has it.  For dates [d1 <= d2], when the quantities of
    the ticker's transactions are finite and every transaction of the
    ticker dated after [d1] and on or before [d2] is a BUY of a
    non-negative quantity, the share count at [d1] is at most the share
    count at [d2]. *)
Theorem shareCountAtDate_monotone_between_sells
    (txs : list Transaction) (tk d1 d2 : string) :
  JS.le (DateValue d1) (DateValue d2) = true ->
  (forall t, In t txs -> tx_ticker t = tk -> JS.is_fin (tx_qty t) = true) ->
  (forall t, In t txs ->
     heldOn DateValue tk d2 t = true -> heldOn DateValue tk d1 t = false ->
     tx_type t = BUY /\ JS.le JS.zero (tx_qty t) = true) ->
  JS.le (shareCountAtDate DateValue txs tk d1)
        (shareCountAtDate DateValue txs tk d2) = true.
Proof.
  intros Hd Hfin Hbuy.
  destruct (@shareCount_loops_ordered tk d1 d2 Hd txs Hfin Hbuy 0 0)
    as (y1 & y2 & E1 & E2 & Hy); [lra|].
  unfold shareCountAtDate, JS.zero. rewrite E1, E2. simpl.
  destruct (JS.Qltb y1 0) eqn:L1, (JS.Qltb y2 0) eqn:L2; simpl;
    apply Qle_bool_iff;
    repeat match goal with
      | H : JS.Qltb _ _ = true |- _ => apply Qltb_lt in H
      | H : JS.Qltb _ _ = false |- _ => apply Qltb_ge in H
      end; lra.
Qed.

End ShareCount.

(** C4 fails as stated: a quantity imported from the text [abc] is [NaN],
    and so is the share count, which is then not at least zero. *)
Lemma shareCountAtDate_of_NaN_quantity_is_NaN :
  exists t : Transaction,
    csvToTransactions exampleUid "2025-01-10" csvWithTextInNumbers = [t]
    /\ tx_qty t = NaN
    /\ shareCountAtDate isoDateValue [t] "PETR4" "2024-02-15" = NaN
    /\ JS.ge (shareCountAtDate isoDateValue [t] "PETR4" "2024-02-15")
             JS.zero = false.
Proof.
  eexists. split; [vm_compute; reflexivity|].
  repeat split.
Qed.

Lemma shareCountAtDate_signed_sum_clamped_witness :
  JS.ge (shareCountAtDate isoDateValue [txBuy100; txSell50]
           "PETR4" "2024-02-15") JS.zero = true
  /\ shareCountAtDate isoDateValue
       [mkTransaction "n1" "2024-01-01" "PETR4" BUY NaN (Fin 10) None]
       "PETR4" "2024-02-15" = NaN.
Proof.
  split.
  - destruct (@shareCountAtDate_signed_sum_clamped isoDateValue
                [txBuy100; txSell50] "PETR4" "2024-02-15")
      as (_ & _ & _ & _ & H & _).
    apply H. intros t [<- | [<- | []]] _; reflexivity.
  - destruct (@shareCountAtDate_signed_sum_clamped isoDateValue
                [mkTransaction "n1" "2024-01-01" "PETR4" BUY NaN (Fin 10)
                   None]
                "PETR4" "2024-02-15")
      as (_ & _ & _ & _ & _ & H).
    apply H.
    exists (mkTransaction "n1" "2024-01-01" "PETR4" BUY NaN (Fin 10) None).
    repeat split. left. reflexivity.
Defined.

(** C5 fails as stated: from 15 January to 15 February the count goes from
    100 down to 50, and nothing is clamped. *)
Lemma shareCountAtDate_decreases_after_sell :
  JS.le (isoDateValue "2024-01-15") (isoDateValue "2024-02-15") = true
  /\ shareCountAtDate isoDateValue [txBuy100; txSell50] "PETR4" "2024-01-15"
     = Fin 100
  /\ shareCountAtDate isoDateValue [txBuy100; txSell50] "PETR4" "2024-02-15"
     = Fin 50
  /\ JS.le
       (shareCountAtDate isoDateValue [txBuy100; txSell50]
          "PETR4" "2024-01-15")
       (shareCountAtDate isoDateValue [txBuy100; txSell50]
          "PETR4" "2024-02-15")
     = false.
Proof. vm_compute. repeat split; reflexivity. Qed.

Lemma shareCountAtDate_monotone_between_sells_witness :
  JS.le
    (shareCountAtDate isoDateValue [txBuy100; txSell50] "PETR4" "2023-12-31")
    (shareCountAtDate isoDateValue [txBuy100; txSell50] "PETR4" "2024-01-15")
  = true.
Proof.
  apply (@shareCountAtDate_monotone_between_sells isoDateValue
           [txBuy100; txSell50] "PETR4" "2023-12-31" "2024-01-15").
  - vm_compute. reflexivity.
  - intros t [<- | [<- | []]] _; reflexivity.
  - intros t [<- | [<- | []]]; vm_compute; intros H1 H2;
      first [discriminate | split; reflexivity].
Defined.

(* ===================================================================== *)
(** * The cost-basis fold *)
(* ===================================================================== *)






(** On binary64 the average moves at a sale without fees too: of 3 shares
    bought at 10.01, 1 is sold. *)
Example binary64_average_moves_without_fees :
  PrimFloat.eqb
    (B64.average (B64.costFold [buy3at1001; sell1NoFees]))
    (B64.average (B64.costFold [buy3at1001]))
  = false
  /\ PrimFloat.ltb
       (B64.average (B64.costFold [buy3at1001]))
       (B64.average (B64.costFold [buy3at1001; sell1NoFees]))
     = true.
Proof. vm_compute. split; reflexivity. Qed.

(** On binary64 the cost that the loop accumulates in stored order is not
    the sum taken in another grouping: 0.1, 0.2 and 0.3. *)
Example binary64_cost_depends_on_grouping :
  PrimFloat.eqb
    (snd (B64.costFold [buy1at 1 10; buy1at 2 10; buy1at 3 10]))
    (PrimFloat.add (B64.dec 1 10)
       (PrimFloat.add (B64.dec 2 10) (B64.dec 3 10)))
  = false.
Proof. vm_compute. reflexivity. Qed.

(** A run of purchases accumulates quantities and costs in stored order. *)
Lemma costFold_buys_in_order (l : list Transaction) :
  Forall (fun t => tx_type t = BUY) l ->
  forall q c : number,
    fold_left costStep l (q, c)
    = (fold_left JS.add (map tx_qty l) q,
       fold_left JS.add (map buyCost l) c).
Proof.
  induction 1 as [|t l Ht _ IH]; intros q c; [reflexivity|].
  cbn [fold_left map].
  assert (E : costStep (q, c) t
              = (JS.add q (tx_qty t), JS.add c (buyCost t))).
  { unfold costStep, buyCost. rewrite Ht. reflexivity. }
  rewrite E. apply IH.
Qed.

Lemma Forall_firstn {A : Type} (P : A -> Prop) (k : nat) (l : list A) :
  Forall P l -> Forall P (firstn k l).
Proof.
  intro H. revert k. induction H as [|x l Hx _ IH]; intros [|k]; simpl;
    constructor; auto.
Qed.

(** The average price field: the divisor is [Math.max(qty, 1)], which is
    [qty] itself from one share up, and never zero. *)
Lemma avgPriceOf_from_one_share (n c : Q) :
  1 <= n ->
  avgPriceOf (Fin n) (Fin c) =n= JS.div (Fin c) (Fin n).
Proof.
  intro H. unfold avgPriceOf, JS.gt. simpl.
  assert (L : JS.Qltb 0 n = true) by (apply Qltb_lt; lra).
  assert (M : JS.Qltb n 1 = false) by (apply Qltb_ge; lra).
  rewrite L, M. apply n_eq_refl.
Qed.

(* ===================================================================== *)
(** * The shape of [aggregatePositions] *)
(* ===================================================================== *)

(** ** [Map] facts *)

Lemma get_set {V : Type} (m : JSMap.t V) (k : string) (v : V) (k' : string) :
  JSMap.get (JSMap.set m k v) k'
  = if String.eqb k k' then Some v else JSMap.get m k'.
Proof.
  induction m as [|[k0 v0] m IH]; simpl.
  - reflexivity.
  - destruct (String.eqb k0 k) eqn:E; simpl.
    + apply String.eqb_eq in E. subst k0.
      destruct (String.eqb k k'); reflexivity.
    + rewrite IH. destruct (String.eqb k0 k') eqn:E'; [|reflexivity].
      apply String.eqb_eq in E'. subst k'.
      rewrite String.eqb_sym, E. reflexivity.
Qed.

Lemma keys_set_in {V : Type} (m : JSMap.t V) (k : string) (v : V)
    (x : string) :
  In x (JSMap.keys (JSMap.set m k v)) <-> In x (JSMap.keys m) \/ x = k.
Proof.
  unfold JSMap.keys.
  induction m as [|[k0 v0] m IH]; simpl.
  - intuition auto.
  - destruct (String.eqb k0 k) eqn:E; simpl.
    + apply String.eqb_eq in E. subst k0. intuition auto.
    + rewrite IH. intuition auto.
Qed.

Lemma keys_set_NoDup {V : Type} (m : JSMap.t V) (k : string) (v : V) :
  NoDup (JSMap.keys m) -> NoDup (JSMap.keys (JSMap.set m k v)).
Proof.
  induction m as [|[k0 v0] m IH]; simpl; intro H.
  - constructor; [intros []|constructor].
  - inversion H as [|? ? Hn Hm]; subst.
    destruct (String.eqb k0 k) eqn:E; simpl.
    + constructor; assumption.
    + constructor; [|apply IH; exact Hm].
      intro Hin. apply keys_set_in in Hin. destruct Hin as [Hin | ->].
      * exact (Hn Hin).
      * rewrite String.eqb_refl in E. discriminate.
Qed.

Lemma get_In {V : Type} (m : JSMap.t V) (k : string) (v : V) :
  JSMap.get m k = Some v -> In (k, v) m.
Proof.
  induction m as [|[k0 v0] m IH]; simpl; [discriminate|].
  destruct (String.eqb k0 k) eqn:E.
  - apply String.eqb_eq in E. intros [= ->]. left. congruence.
  - intro H. right. exact (IH H).
Qed.

Lemma In_get {V : Type} (m : JSMap.t V) (k : string) (v : V) :
  NoDup (JSMap.keys m) -> In (k, v) m -> JSMap.get m k = Some v.
Proof.
  induction m as [|[k0 v0] m IH]; simpl; intros Hnd Hin; [contradiction|].
  inversion Hnd as [|? ? Hn Hm]; subst.
  destruct Hin as [[= -> ->] | Hin].
  - rewrite String.eqb_refl. reflexivity.
  - destruct (String.eqb k0 k) eqn:E.
    + apply String.eqb_eq in E. subst k0. exfalso. apply Hn.
      unfold JSMap.keys. apply (in_map fst) in Hin. exact Hin.
    + apply IH; assumption.
Qed.

Lemma keys_get {V : Type} (m : JSMap.t V) (k : string) :
  In k (JSMap.keys m) <-> JSMap.get m k <> None.
Proof.
  induction m as [|[k0 v0] m IH]; simpl.
  - intuition auto.
  - destruct (String.eqb k0 k) eqn:E.
    + apply String.eqb_eq in E. split; [discriminate | auto].
    + apply String.eqb_neq in E. rewrite <- IH. intuition auto.
Qed.

(** ** The grouping loop *)

Lemma groupStep_get (m : JSMap.t (list Transaction)) (t : Transaction)
    (tk : string) :
  JSMap.get (groupStep m t) tk
  = if String.eqb (tx_ticker t) tk
    then Some (match JSMap.get m (tx_ticker t) with
               | Some l => l ++ [t]
               | None => [t]
               end)
    else JSMap.get m tk.
Proof.
  unfold groupStep, JSMap.has.
  destruct (JSMap.get m (tx_ticker t)) as [l|] eqn:G; simpl.
  - rewrite G. apply get_set.
  - rewrite get_set, String.eqb_refl. rewrite !get_set.
    destruct (String.eqb (tx_ticker t) tk); reflexivity.
Qed.

Lemma groupStep_NoDup (m : JSMap.t (list Transaction)) (t : Transaction) :
  NoDup (JSMap.keys m) -> NoDup (JSMap.keys (groupStep m t)).
Proof.
  intro H. unfold groupStep.
  destruct (negb (JSMap.has m (tx_ticker t)));
    destruct (JSMap.get _ (tx_ticker t));
    repeat apply keys_set_NoDup; exact H.
Qed.

Lemma txByTicker_snoc (txs : list Transaction) (t : Transaction) :
  txByTicker (txs ++ [t]) = groupStep (txByTicker txs) t.
Proof. unfold txByTicker. rewrite fold_left_app. reflexivity. Qed.

(** Each ticker is mapped to its transactions, in their stored order. *)
Lemma txByTicker_get (txs : list Transaction) (tk : string) :
  JSMap.get (txByTicker txs) tk = nonEmptyOpt (filter (tickerIs tk) txs).
Proof.
  induction txs as [|t txs IH] using rev_ind.
  - reflexivity.
  - rewrite txByTicker_snoc, groupStep_get, filter_app. simpl.
    unfold tickerIs at 2.
    destruct (String.eqb (tx_ticker t) tk) eqn:E.
    + apply String.eqb_eq in E. subst tk. rewrite IH.
      destruct (filter (tickerIs (tx_ticker t)) txs); reflexivity.
    + rewrite app_nil_r. exact IH.
Qed.

Lemma txByTicker_NoDup (txs : list Transaction) :
  NoDup (JSMap.keys (txByTicker txs)).
Proof.
  induction txs as [|t txs IH] using rev_ind.
  - constructor.
  - rewrite txByTicker_snoc. apply groupStep_NoDup, IH.
Qed.

Lemma filter_tickerIs_nil (txs : list Transaction) (tk : string) :
  filter (tickerIs tk) txs = [] <-> ~ In tk (map tx_ticker txs).
Proof.
  induction txs as [|t txs IH]; simpl.
  - intuition auto.
  - unfold tickerIs at 1. destruct (String.eqb (tx_ticker t) tk) eqn:E.
    + apply String.eqb_eq in E. split; [discriminate | intro H].
      exfalso. apply H. left. exact E.
    + apply String.eqb_neq in E. rewrite IH. intuition auto.
Qed.

Lemma txByTicker_keys (txs : list Transaction) (tk : string) :
  In tk (JSMap.keys (txByTicker txs)) <-> In tk (map tx_ticker txs).
Proof.
  rewrite keys_get, txByTicker_get.
  destruct (filter (tickerIs tk) txs) as [|t l] eqn:E; simpl.
  - apply filter_tickerIs_nil in E. intuition auto.
  - split; [|discriminate]. intros _.
    destruct (in_dec string_dec tk (map tx_ticker txs)) as [H|H]; auto.
    apply filter_tickerIs_nil in H. congruence.
Qed.

Lemma txByTicker_In (txs : list Transaction) (tk : string)
    (l : list Transaction) :
  In (tk, l) (txByTicker txs) ->
  l = filter (tickerIs tk) txs /\ l <> [].
Proof.
  intro H. apply In_get in H; [|apply txByTicker_NoDup].
  rewrite txByTicker_get in H.
  destruct (filter (tickerIs tk) txs); simpl in H; [discriminate|].
  injection H as <-. split; [reflexivity | discriminate].
Qed.

(** ** The final sort *)

Lemma sortInsert_Permutation {A : Type} (cmp : A -> A -> Z) (x : A)
    (l : list A) :
  Permutation (sortInsert cmp x l) (x :: l).
Proof.
  induction l as [|y l IH]; simpl.
  - apply Permutation_refl.
  - destruct (cmp x y <? 0)%Z.
    + apply Permutation_refl.
    + eapply perm_trans; [apply perm_skip, IH | apply perm_swap].
Qed.

Lemma sortBy_Permutation {A : Type} (cmp : A -> A -> Z) (l : list A) :
  Permutation (sortBy cmp l) l.
Proof.
  unfold sortBy.
  assert (G : forall acc, Permutation
                (fold_left (fun acc x => sortInsert cmp x acc) l acc)
                (acc ++ l)).
  { induction l as [|x l IH]; intro acc; simpl.
    - rewrite app_nil_r. apply Permutation_refl.
    - eapply perm_trans; [apply IH|].
      eapply perm_trans;
        [apply Permutation_app_tail, sortInsert_Permutation|].
      simpl. apply Permutation_middle. }
  apply (G []).
Qed.

(** ** The positions of the tickers that have transactions *)

Section Positions.

Variable DateValue : string -> number.
Variable localeCompare : string -> string -> Z.
Variable p : PortfolioData.

Lemma positionOf_fields (k : string) (l : list Transaction) :
  let pos := positionOf DateValue p (k, l) in
  ticker pos = k
  /\ qty pos = fst (costFold l)
  /\ invested pos = snd (costFold l)
  /\ avgPrice pos = avgPriceOf (qty pos) (invested pos)
  /\ lastPrice pos = JS.opt_or0 (JSMap.get (priceMap p) k)
  /\ trigger pos = JSMap.get (trigMap p) k
  /\ signal pos = txSignal (trigger pos) (lastPrice pos) (plPct pos).
Proof.
  unfold positionOf. destruct (costFold l) as [q c]. simpl.
  repeat split; reflexivity.
Qed.

Lemma positionOf_tickers (m : JSMap.t (list Transaction)) :
  map ticker (map (positionOf DateValue p) m) = JSMap.keys m.
Proof.
  unfold JSMap.keys. rewrite map_map. apply map_ext.
  intros [k l]. apply (positionOf_fields k l).
Qed.

(** ** The loop over the quotes *)

Lemma find_ticker_None (k : string) (l : list Position) :
  find (fun x => String.eqb (ticker x) k) l = None
  <-> ~ In k (map ticker l).
Proof.
  induction l as [|x l IH]; simpl.
  - intuition auto.
  - destruct (String.eqb (ticker x) k) eqn:E.
    + apply String.eqb_eq in E. split; [discriminate|].
      intro H. exfalso. apply H. left. exact E.
    + apply String.eqb_neq in E. rewrite IH. intuition auto.
Qed.

Lemma addQuoteOnly_tickers (prs : list PriceNow) :
  forall (acc : list Position) (tk : string),
    In tk (map ticker (fold_left (addQuoteOnly p) prs acc))
    <-> In tk (map ticker acc) \/ In tk (map pn_ticker prs).
Proof.
  induction prs as [|pr prs IH]; intros acc tk; simpl.
  - intuition auto.
  - rewrite IH. unfold addQuoteOnly.
    destruct (find _ acc) eqn:F.
    + assert (H : In (pn_ticker pr) (map ticker acc)).
      { destruct (in_dec string_dec (pn_ticker pr) (map ticker acc));
          [assumption|].
        apply find_ticker_None in n. congruence. }
      intuition (subst; auto).
    + rewrite map_app, in_app_iff. simpl. intuition auto.
Qed.

Lemma addQuoteOnly_NoDup (prs : list PriceNow) :
  forall acc : list Position,
    NoDup (map ticker acc) ->
    NoDup (map ticker (fold_left (addQuoteOnly p) prs acc)).
Proof.
  induction prs as [|pr prs IH]; intros acc H; simpl; [exact H|].
  apply IH. unfold addQuoteOnly.
  destruct (find _ acc) eqn:F; [exact H|].
  apply find_ticker_None in F.
  rewrite map_app. simpl.
  apply NoDup_app; [exact H | constructor; [intros []|constructor] |].
  intros x Hx [<- | []]. exact (F Hx).
Qed.

Lemma addQuoteOnly_In (prs : list PriceNow) :
  forall (acc : list Position) (pos : Position),
    In pos (fold_left (addQuoteOnly p) prs acc) ->
    In pos acc
    \/ exists pr, In pr prs /\ pos = quotePosition p pr
                  /\ ~ In (pn_ticker pr) (map ticker acc).
Proof.
  induction prs as [|pr prs IH]; intros acc pos H; simpl in *; [auto|].
  apply IH in H. unfold addQuoteOnly in H.
  destruct (find _ acc) eqn:F.
  - destruct H as [H | (pr' & H1 & H2 & H3)]; [auto|].
    right. exists pr'. auto.
  - apply find_ticker_None in F.
    destruct H as [H | (pr' & H1 & H2 & H3)].
    + apply in_app_iff in H. destruct H as [H | [<- | []]]; [auto|].
      right. exists pr. auto.
    + right. exists pr'. repeat split; auto.
      intro Hin. apply H3. rewrite map_app, in_app_iff. auto.
Qed.

(** ** What the output is made of *)

Lemma aggregate_In (pos : Position) :
  In pos (aggregatePositions DateValue localeCompare p)
  <-> In pos (positionsUnsorted DateValue p).
Proof.
  unfold aggregatePositions. split; apply Permutation_in.
  - apply sortBy_Permutation.
  - apply Permutation_sym, sortBy_Permutation.
Qed.

(** A position of the output either comes from the ticker's stored
    transactions or, when the ticker has none, from one of its quotes. *)
Lemma aggregate_cases (pos : Position) :
  In pos (aggregatePositions DateValue localeCompare p) ->
  (In (ticker pos) (map tx_ticker (transactions p))
   /\ pos = positionOf DateValue p
              (ticker pos,
               filter (tickerIs (ticker pos)) (transactions p)))
  \/ (~ In (ticker pos) (map tx_ticker (transactions p))
      /\ exists pr, In pr (prices p) /\ pos = quotePosition p pr).
Proof.
  intro H. apply aggregate_In in H. unfold positionsUnsorted in H.
  apply addQuoteOnly_In in H. destruct H as [H | (pr & H1 & H2 & H3)].
  - left. apply in_map_iff in H. destruct H as ([k l] & <- & Hin).
    destruct (positionOf_fields k l) as [Hk _]. rewrite Hk.
    assert (Hkeys : In k (JSMap.keys (txByTicker (transactions p)))).
    { unfold JSMap.keys. apply (in_map fst) in Hin. exact Hin. }
    apply txByTicker_keys in Hkeys.
    apply txByTicker_In in Hin. destruct Hin as [-> _]. auto.
  - right. rewrite positionOf_tickers in H3. subst pos. simpl.
    split; [|exists pr; auto].
    intro Hin. apply H3. apply txByTicker_keys. exact Hin.
Qed.

Lemma aggregate_tickers (tk : string) :
  In tk (map ticker (aggregatePositions DateValue localeCompare p))
  <-> In tk (map tx_ticker (transactions p))
      \/ In tk (map pn_ticker (prices p)).
Proof.
  assert (P : Permutation
                (map ticker (aggregatePositions DateValue localeCompare p))
                (map ticker (positionsUnsorted DateValue p)))
    by apply Permutation_map, sortBy_Permutation.
  split.
  - intro H. apply (Permutation_in _ P) in H.
    unfold positionsUnsorted in H. apply addQuoteOnly_tickers in H.
    rewrite positionOf_tickers, txByTicker_keys in H. exact H.
  - intro H. apply (Permutation_in _ (Permutation_sym P)).
    unfold positionsUnsorted. apply addQuoteOnly_tickers.
    rewrite positionOf_tickers, txByTicker_keys. exact H.
Qed.

Lemma aggregate_NoDup :
  NoDup (map ticker (aggregatePositions DateValue localeCompare p)).
Proof.
  apply (Permutation_NoDup
           (l := map ticker (positionsUnsorted DateValue p))).
  - apply Permutation_sym, Permutation_map, sortBy_Permutation.
  - unfold positionsUnsorted. apply addQuoteOnly_NoDup.
    rewrite positionOf_tickers. apply txByTicker_NoDup.
Qed.

End Positions.

(* ===================================================================== *)
(** * Positions: cost basis, signals, coverage *)
(* ===================================================================== *)

Lemma Forall_filter_buys (txs : list Transaction) (tk : string) :
  (forall t, In t txs -> tx_ticker t = tk -> tx_type t = BUY) ->
  Forall (fun t => tx_type t = BUY) (filter (tickerIs tk) txs).
Proof.
  intro H. apply Forall_forall. intros t Ht.
  apply filter_In in Ht. destruct Ht as [Hin Htk].
  apply H; [exact Hin|]. apply String.eqb_eq. exact Htk.
Qed.

Lemma costFold_buys_from_zero (l : list Transaction) :
  Forall (fun t => tx_type t = BUY) l ->
  snd (costFold l) = sumInOrder (map buyCost l)
  /\ fst (costFold l) = sumInOrder (map tx_qty l).
Proof.
  intro H. unfold costFold, sumInOrder.
  rewrite (costFold_buys_in_order H). split; reflexivity.
Qed.

(** The code's sequence of overriding tests is the precedence rule. *)
Lemma txSignal_precedence (tr : option Trigger) (lastPrice plPct : number) :
  txSignal tr lastPrice plPct = signalByPrecedence tr lastPrice plPct.
Proof.
  unfold txSignal, signalByPrecedence, stopMatches, sellMatches, buyMatches.
  destruct tr as [t|]; [|reflexivity].
  destruct (trailingStopPct t) as [k|], (sellPrice t) as [s|],
    (buyPrice t) as [b|];
    repeat match goal with
      | |- context [JS.gt ?a ?b] => generalize (JS.gt a b); intro
      | |- context [JS.le ?a ?b] => generalize (JS.le a b); intro
      | |- context [JS.ge ?a ?b] => generalize (JS.ge a b); intro
      end;
    repeat match goal with
      | x : bool |- _ => destruct x
      end; reflexivity.
Qed.

Lemma quoteSignal_not_stop (tr : option Trigger) (price : number) :
  quoteSignal tr price <> Signal.STOP.
Proof.
  unfold quoteSignal.
  destruct (quoteBuyFires tr price), (quoteSellFires tr price);
    discriminate.
Qed.

Section PositionProperties.

Variable DateValue : string -> number.
Variable localeCompare : string -> string -> Z.

Local Abbreviation aggregate := (aggregatePositions DateValue localeCompare).

(** C2, as the code has it.  When every transaction of a ticker is a BUY,
    the ticker's position has [invested] equal to the sum of
    [qty * price + fees], fees that are absent, zero or not a number
    being read as 0, and [qty] equal to the sum of the quantities, both
    accumulated from 0 over the ticker's transactions in stored order; and
    the running cost and quantity are these sums after every prefix of
    the fold. *)
Theorem buys_only_invested_and_qty_are_sums
    (p : PortfolioData) (tk : string) (pos : Position) :
  (forall t, In t (transactions p) -> tx_ticker t = tk -> tx_type t = BUY) ->
  In pos (aggregate p) ->
  ticker pos = tk ->
  invested pos
  = sumInOrder (map buyCost (filter (tickerIs tk) (transactions p)))
  /\ qty pos
     = sumInOrder (map tx_qty (filter (tickerIs tk) (transactions p)))
  /\ (forall k : nat,
        snd (costFold (firstn k (filter (tickerIs tk) (transactions p))))
        = sumInOrder
            (map buyCost (firstn k (filter (tickerIs tk) (transactions p))))
        /\ fst (costFold (firstn k (filter (tickerIs tk) (transactions p))))
           = sumInOrder
               (map tx_qty
                  (firstn k (filter (tickerIs tk) (transactions p))))).
Proof.
  intros Hbuy Hin Htk.
  pose proof (Forall_filter_buys _ Hbuy) as Hall.
  assert (Hpos : invested pos
                   = snd (costFold (filter (tickerIs tk) (transactions p)))
                 /\ qty pos
                   = fst (costFold (filter (tickerIs tk) (transactions p)))).
  { destruct (@aggregate_cases DateValue localeCompare p pos Hin)
      as [[_ E] | [Hno (pr & _ & E)]].
    - rewrite Htk in E.
      destruct (@positionOf_fields DateValue p tk
                  (filter (tickerIs tk) (transactions p)))
        as (_ & Hq & Hc & _).
      rewrite E. auto.
    - rewrite Htk in Hno. apply filter_tickerIs_nil in Hno.
      rewrite Hno, E. split; reflexivity. }
  destruct Hpos as [-> ->].
  destruct (costFold_buys_from_zero Hall) as [Hc Hq].
  split; [exact Hc|]. split; [exact Hq|].
  intro k. apply costFold_buys_from_zero, Forall_firstn, Hall.
Qed.

(** The signal of a traded ticker, by the precedence rule. *)
Lemma traded_signal (p : PortfolioData) (pos : Position) :
  In pos (aggregate p) ->
  In (ticker pos) (map tx_ticker (transactions p)) ->
  signal pos
  = signalByPrecedence (trigger pos) (lastPrice pos) (plPct pos).
Proof.
  intros Hin Htx.
  destruct (@aggregate_cases DateValue localeCompare p pos Hin)
    as [[_ E] | [Hno _]]; [|contradiction].
  destruct (@positionOf_fields DateValue p (ticker pos)
              (filter (tickerIs (ticker pos)) (transactions p)))
    as (_ & _ & _ & _ & _ & _ & Hs).
  rewrite <- E in Hs. rewrite Hs. apply txSignal_precedence.
Qed.

(** C3.  For a position of a ticker that has transactions the signal
    follows the precedence STOP over SELL over BUY over HOLD, each
    condition as the specification words it; in particular it is SELL
    when the buy and sell thresholds both match and the stop does not,
    and STOP when all three match. *)
Theorem signal_follows_precedence (p : PortfolioData) (pos : Position) :
  In pos (aggregate p) ->
  In (ticker pos) (map tx_ticker (transactions p)) ->
  signal pos
  = signalByPrecedence (trigger pos) (lastPrice pos) (plPct pos)
  /\ (buyMatches (trigger pos) (lastPrice pos) = true ->
      sellMatches (trigger pos) (lastPrice pos) = true ->
      stopMatches (trigger pos) (lastPrice pos) (plPct pos) = false ->
      signal pos = Signal.SELL)
  /\ (buyMatches (trigger pos) (lastPrice pos) = true ->
      sellMatches (trigger pos) (lastPrice pos) = true ->
      stopMatches (trigger pos) (lastPrice pos) (plPct pos) = true ->
      signal pos = Signal.STOP).
Proof.
  intros Hin Htx.
  pose proof (traded_signal p pos Hin Htx) as E.
  split; [exact E|].
  unfold signalByPrecedence in E.
  split; intros Hb Hs Hst; rewrite E, Hst; [rewrite Hs|]; reflexivity.
Qed.

(** Coverage of the output.  It holds exactly one position per
    distinct ticker that appears in the transactions or in the quotes;
    a ticker with a quote and no transactions gets a position with
    [qty = invested = 0], its quote as last price, and a signal computed
    from the buy and sell thresholds against that quote alone, never
    STOP.  (A ticker that has only a trigger gets no position.) *)
Theorem one_position_per_traded_or_quoted_ticker (p : PortfolioData) :
  NoDup (map ticker (aggregate p))
  /\ (forall tk : string,
        In tk (map ticker (aggregate p))
        <-> In tk (map tx_ticker (transactions p))
            \/ In tk (map pn_ticker (prices p)))
  /\ (forall pos : Position,
        In pos (aggregate p) ->
        ~ In (ticker pos) (map tx_ticker (transactions p)) ->
        qty pos = JS.zero
        /\ invested pos = JS.zero
        /\ signal pos <> Signal.STOP
        /\ exists pr : PriceNow,
             In pr (prices p)
             /\ pn_ticker pr = ticker pos
             /\ lastPrice pos = pn_price pr
             /\ trigger pos
                = find (fun t => String.eqb (tr_ticker t) (ticker pos))
                       (triggers p)
             /\ signal pos = quoteSignal (trigger pos) (pn_price pr)).
Proof.
  split; [apply (@aggregate_NoDup DateValue localeCompare p)|].
  split; [apply (@aggregate_tickers DateValue localeCompare p)|].
  intros pos Hin Hno.
  destruct (@aggregate_cases DateValue localeCompare p pos Hin)
    as [[Htx _] | [_ (pr & Hpr & E)]]; [contradiction|].
  rewrite E. simpl. repeat split.
  - apply quoteSignal_not_stop.
  - exists pr. repeat split. exact Hpr.
Qed.

(** C10, as the code has it.  For a ticker that has transactions the
    thresholds pass a null test, so a threshold of zero is not skipped:
    a sell threshold of zero matches whenever the last price is positive,
    and the signal is then SELL unless the trailing stop fires, in which
    case it is STOP; a buy threshold of zero can never match, because a
    positive last price is required as well.  For a
    ticker that has a quote and no transactions the thresholds are tested
    for truthiness: a threshold of zero never fires, and the signal is
    HOLD when each threshold is zero or unset. *)
Theorem zero_thresholds_null_test_versus_truthiness
    (p : PortfolioData) (pos : Position) (tr : Trigger) :
  In pos (aggregate p) ->
  trigger pos = Some tr ->
  (In (ticker pos) (map tx_ticker (transactions p)) ->
   isZero (sellPrice tr) = true ->
   JS.gt (lastPrice pos) JS.zero = true ->
   sellMatches (trigger pos) (lastPrice pos) = true
   /\ signal pos
      = if stopMatches (trigger pos) (lastPrice pos) (plPct pos)
        then Signal.STOP else Signal.SELL)
  /\ (In (ticker pos) (map tx_ticker (transactions p)) ->
      isZero (buyPrice tr) = true ->
      buyMatches (trigger pos) (lastPrice pos) = false)
  /\ (~ In (ticker pos) (map tx_ticker (transactions p)) ->
      (isZero (buyPrice tr) = true ->
       quoteBuyFires (trigger pos) (lastPrice pos) = false)
      /\ (isZero (sellPrice tr) = true ->
          quoteSellFires (trigger pos) (lastPrice pos) = false)
      /\ (zeroOrUnset (buyPrice tr) = true ->
          zeroOrUnset (sellPrice tr) = true ->
          signal pos = Signal.HOLD)).
Proof.
  intros Hin Htr. split; [|split].
  - intros Htx Hz Hlp.
    pose proof (traded_signal p pos Hin Htx) as E.
    assert (Hs : sellMatches (trigger pos) (lastPrice pos) = true).
    { rewrite Htr. unfold sellMatches.
      destruct (sellPrice tr) as [[| | |s]|]; try discriminate.
      rewrite Hlp. simpl in *.
      unfold JS.gt in Hlp. unfold JS.ge.
      apply Qeqb_eq in Hz.
      destruct (lastPrice pos) as [| | |x]; simpl in *;
        try discriminate; try reflexivity.
      apply Qltb_lt in Hlp. apply Qle_bool_iff. lra. }
    split; [exact Hs|].
    rewrite E. unfold signalByPrecedence. rewrite Hs. reflexivity.
  - intros _ Hz. rewrite Htr. unfold buyMatches.
    destruct (buyPrice tr) as [[| | |b]|]; try discriminate.
    simpl in Hz. apply Qeqb_eq in Hz.
    destruct (lastPrice pos) as [| | |x]; try reflexivity.
    unfold JS.gt. simpl.
    destruct (JS.Qltb 0 x) eqn:L; [|reflexivity].
    apply Qltb_lt in L. simpl.
    destruct (Qle_bool x b) eqn:M; [|reflexivity].
    apply Qle_bool_iff in M. lra.
  - intro Hno.
    destruct (@aggregate_cases DateValue localeCompare p pos Hin)
      as [[Htx _] | [_ (pr & Hpr & E)]]; [contradiction|].
    assert (Es : signal pos = quoteSignal (trigger pos) (lastPrice pos))
      by (rewrite E; reflexivity).
    rewrite Es, Htr. unfold quoteSignal, quoteBuyFires, quoteSellFires.
    repeat split.
    + intro Hz. destruct (buyPrice tr) as [[| | |b]|]; try discriminate.
      simpl in *. unfold JS.Qeqb in *. rewrite Hz. reflexivity.
    + intro Hz. destruct (sellPrice tr) as [[| | |s]|]; try discriminate.
      simpl in *. unfold JS.Qeqb in *. rewrite Hz. reflexivity.
    + intros Hb Hs. unfold zeroOrUnset in *.
      destruct (buyPrice tr) as [b|], (sellPrice tr) as [s|];
        repeat match goal with
          | H : negb ?x = true |- _ =>
              apply negb_true_iff in H; rewrite H
          end; reflexivity.
Qed.

End PositionProperties.

(* ===================================================================== *)
(** * The statements at the example data *)
(* ===================================================================== *)

(** The scenario of the specification: 50 shares left, a cost basis of
    1876.10, an average of 37.522, a market value of 1905 and a profit of
    28.90. *)
Example scenario_position :
  exists pos : Position,
    aggregatePositions isoDateValue codeUnitCompare scenario = [pos]
    /\ qty pos =n= Fin 50
    /\ invested pos =n= Fin (187610 # 100)
    /\ avgPrice pos =n= Fin (37522 # 1000)
    /\ mktValue pos =n= Fin 1905
    /\ pl pos =n= Fin (2890 # 100).
Proof.
  eexists. split; [vm_compute; reflexivity|].
  vm_compute. repeat split; reflexivity.
Qed.

(** The dividend of the demonstration portfolio, paid on the day of the
    purchase: 0.75 on each of 100 shares. *)
Example demo_dividends :
  divsTotal (tradedPosition demo "PETR4") =n= Fin 75.
Proof. vm_compute. reflexivity. Qed.

(** C2 fails as stated: fees imported from the text [x] are [NaN]; the
    code reads them as 0, so the cost basis is 10, while the sum with the
    fees as they are is [NaN]. *)
Lemma text_fees_are_read_as_zero :
  exists (t : Transaction) (pos : Position),
    transactions importedWithTextFees = [t]
    /\ tx_type t = BUY
    /\ tx_fees t = Some NaN
    /\ aggregatePositions isoDateValue codeUnitCompare importedWithTextFees
       = [pos]
    /\ invested pos =n= Fin 10
    /\ sumInOrder
         (map costAsStated
            (filter (tickerIs "PETR4") (transactions importedWithTextFees)))
       = NaN
    /\ ~ invested pos
         =n= sumInOrder
               (map costAsStated
                  (filter (tickerIs "PETR4")
                          (transactions importedWithTextFees))).
Proof.
  do 2 eexists. split; [vm_compute; reflexivity|].
  split; [reflexivity|]. split; [reflexivity|].
  split; [vm_compute; reflexivity|].
  split; [vm_compute; reflexivity|].
  split; [vm_compute; reflexivity|].
  vm_compute. intros [].
Qed.

Lemma buys_only_invested_and_qty_are_sums_witness :
  invested (tradedPosition threeBuys "PETR4")
  = sumInOrder
      (map buyCost (filter (tickerIs "PETR4") (transactions threeBuys)))
  /\ qty (tradedPosition threeBuys "PETR4")
     = sumInOrder
         (map tx_qty (filter (tickerIs "PETR4") (transactions threeBuys))).
Proof.
  destruct (@buys_only_invested_and_qty_are_sums isoDateValue
              codeUnitCompare threeBuys "PETR4"
              (tradedPosition threeBuys "PETR4"))
    as (H1 & H2 & _).
  - intros t [<- | [<- | [<- | [<- | []]]]] _; reflexivity.
  - vm_compute. left. reflexivity.
  - reflexivity.
  - split; assumption.
Defined.

Lemma signal_follows_precedence_witness :
  signal (tradedPosition bothThresholds "ABEV3") = Signal.SELL
  /\ signal (tradedPosition allThreeThresholds "ABEV3") = Signal.STOP.
Proof.
  split.
  - destruct (@signal_follows_precedence isoDateValue codeUnitCompare
                bothThresholds (tradedPosition bothThresholds "ABEV3"))
      as (_ & H & _).
    + vm_compute. left. reflexivity.
    + simpl. left. reflexivity.
    + apply H; reflexivity.
  - destruct (@signal_follows_precedence isoDateValue codeUnitCompare
                allThreeThresholds
                (tradedPosition allThreeThresholds "ABEV3"))
      as (_ & _ & H).
    + vm_compute. left. reflexivity.
    + simpl. left. reflexivity.
    + apply H; reflexivity.
Defined.

(** C6 fails on the code: for half a share bought at 10 the cost is 5 and
    [invested / qty] is 10, but [avgPrice] is 5, the cost divided by
    [Math.max(0.5, 1) = 1]. *)
Theorem avgPrice_of_half_share_is_the_cost :
  exists pos : Position,
    aggregatePositions isoDateValue codeUnitCompare halfShare = [pos]
    /\ JS.gt (qty pos) JS.zero = true
    /\ qty pos =n= Fin (1 # 2)
    /\ invested pos =n= Fin 5
    /\ JS.div (invested pos) (qty pos) =n= Fin 10
    /\ avgPrice pos =n= Fin 5
    /\ ~ avgPrice pos =n= JS.div (invested pos) (qty pos).
Proof.
  eexists. split; [vm_compute; reflexivity|].
  vm_compute. repeat split; try reflexivity; discriminate.
Qed.

(** C7 fails on the code: a ticker with a trigger and neither
    transactions nor a quote gets no position, although the loop is there
    to include the tickers that are only watched. *)
Lemma trigger_only_ticker_gets_no_position :
  In "VALE3"%string (map tr_ticker (triggers triggerOnly))
  /\ ~ In "VALE3"%string (map tx_ticker (transactions triggerOnly))
  /\ aggregatePositions isoDateValue codeUnitCompare triggerOnly = [].
Proof.
  split; [left; reflexivity|]. split; [intros []|reflexivity].
Qed.

Lemma one_position_per_traded_or_quoted_ticker_witness :
  qty (quotePosition demoWatch quoteITUB4) = JS.zero
  /\ invested (quotePosition demoWatch quoteITUB4) = JS.zero
  /\ signal (quotePosition demoWatch quoteITUB4) <> Signal.STOP
  /\ exists pr : PriceNow,
       In pr (prices demoWatch)
       /\ pn_ticker pr = "ITUB4"%string
       /\ lastPrice (quotePosition demoWatch quoteITUB4) = pn_price pr
       /\ trigger (quotePosition demoWatch quoteITUB4)
          = find (fun t => String.eqb (tr_ticker t) "ITUB4")
                 (triggers demoWatch)
       /\ signal (quotePosition demoWatch quoteITUB4)
          = quoteSignal (trigger (quotePosition demoWatch quoteITUB4))
                        (pn_price pr).
Proof.
  destruct (@one_position_per_traded_or_quoted_ticker isoDateValue
              codeUnitCompare demoWatch) as (_ & _ & H).
  apply (H (quotePosition demoWatch quoteITUB4)).
  - vm_compute. left. reflexivity.
  - vm_compute. intros [H1 | [H1 | []]]; discriminate.
Defined.

(** C10 fails as stated: with a sell threshold of zero and a positive
    last price the signal is STOP when the trailing stop fires. *)
Lemma zero_sell_threshold_under_stop_gives_stop :
  exists (pos : Position) (tr : Trigger),
    aggregatePositions isoDateValue codeUnitCompare zeroSellWithStop = [pos]
    /\ In (ticker pos) (map tx_ticker (transactions zeroSellWithStop))
    /\ trigger pos = Some tr
    /\ isZero (sellPrice tr) = true
    /\ JS.gt (lastPrice pos) JS.zero = true
    /\ signal pos = Signal.STOP
    /\ signal pos <> Signal.SELL.
Proof.
  do 2 eexists. split; [vm_compute; reflexivity|].
  split; [left; reflexivity|].
  split; [reflexivity|].
  repeat split; try reflexivity. discriminate.
Qed.

Lemma zero_thresholds_null_test_versus_truthiness_witness :
  (sellMatches (trigger (tradedPosition zeroSellOnly "ABEV3"))
               (lastPrice (tradedPosition zeroSellOnly "ABEV3")) = true
   /\ signal (tradedPosition zeroSellOnly "ABEV3")
      = if stopMatches (trigger (tradedPosition zeroSellOnly "ABEV3"))
                       (lastPrice (tradedPosition zeroSellOnly "ABEV3"))
                       (plPct (tradedPosition zeroSellOnly "ABEV3"))
        then Signal.STOP else Signal.SELL)
  /\ quoteBuyFires (trigger (quotePosition demoWatch quoteITUB4))
                   (lastPrice (quotePosition demoWatch quoteITUB4)) = false
  /\ quoteSellFires (trigger (quotePosition demoWatch quoteITUB4))
                    (lastPrice (quotePosition demoWatch quoteITUB4)) = false
  /\ signal (quotePosition demoWatch quoteITUB4) = Signal.HOLD.
Proof.
  split.
  - destruct (@zero_thresholds_null_test_versus_truthiness isoDateValue
                codeUnitCompare zeroSellOnly
                (tradedPosition zeroSellOnly "ABEV3")
                (mkTrigger "ABEV3" None (Some (Fin 0)) None None))
      as (H & _ & _).
    + vm_compute. left. reflexivity.
    + reflexivity.
    + apply H; [left; reflexivity | reflexivity | reflexivity].
  - destruct (@zero_thresholds_null_test_versus_truthiness isoDateValue
                codeUnitCompare demoWatch
                (quotePosition demoWatch quoteITUB4)
                (mkTrigger "ITUB4" (Some (Fin 0)) (Some (Fin 0))
                   (Some (Fin 5)) None))
      as (_ & _ & H).
    + vm_compute. left. reflexivity.
    + reflexivity.
    + assert (Hno : ~ In (ticker (quotePosition demoWatch quoteITUB4))
                       (map tx_ticker (transactions demoWatch)))
        by (vm_compute; intros [H1 | [H1 | []]]; discriminate).
      destruct (H Hno) as (Hb & Hs & Hh).
      split; [apply Hb; reflexivity|].
      split; [apply Hs; reflexivity|].
      apply Hh; reflexivity.
Defined.

(* ===================================================================== *)
(** * [upsert] and [setPrice] *)
(* ===================================================================== *)

Lemma upsert_nil {T : Type} (f : T -> bool) (next : T) :
  upsert [] f next = [next].
Proof. reflexivity. Qed.

Lemma upsert_cons {T : Type} (f : T -> bool) (next x : T) (r : list T) :
  upsert (x :: r) f next
  = if f x then next :: r else x :: upsert r f next.
Proof.
  unfold upsert. simpl. destruct (f x); [reflexivity|].
  destruct (findIndex f r); reflexivity.
Qed.

Lemma upsert_length {T : Type} (f : T -> bool) (next : T) (arr : list T) :
  List.length (upsert arr f next)
  = match findIndex f arr with
    | Some _ => List.length arr
    | None => S (List.length arr)
    end.
Proof.
  induction arr as [|x r IH].
  - reflexivity.
  - rewrite upsert_cons. simpl. destruct (f x); [reflexivity|].
    simpl. rewrite IH. destruct (findIndex f r); reflexivity.
Qed.

(** C9.  On a list of quotes with at most one quote per ticker, the
    upsert keyed on a ticker that [setPrice] performs gives a list that
    still has at most one quote per ticker, in which the ticker's quote is
    the one just written, and which holds the same quotes as before for
    every other ticker; [setPrice] puts that list in the current
    portfolio and leaves the other portfolios as they are. *)
Theorem upsert_quote_keeps_one_per_ticker
    (quotes : list PriceNow) (tk : string) (price : number)
    (updatedAt : string) :
  NoDup (map pn_ticker quotes) ->
  NoDup (map pn_ticker
           (upsert quotes (fun x => String.eqb (pn_ticker x) tk)
                   (mkPriceNow tk price updatedAt)))
  /\ In (mkPriceNow tk price updatedAt)
        (upsert quotes (fun x => String.eqb (pn_ticker x) tk)
                (mkPriceNow tk price updatedAt))
  /\ (forall q : PriceNow,
        In q (upsert quotes (fun x => String.eqb (pn_ticker x) tk)
                     (mkPriceNow tk price updatedAt)) ->
        pn_ticker q = tk -> q = mkPriceNow tk price updatedAt)
  /\ (forall q : PriceNow,
        pn_ticker q <> tk ->
        (In q (upsert quotes (fun x => String.eqb (pn_ticker x) tk)
                      (mkPriceNow tk price updatedAt))
         <-> In q quotes))
  /\ (forall (cur : PortfolioData) (data : list PortfolioData),
        map prices (setPrice (Some cur) updatedAt tk price data)
        = map (fun p =>
                 if String.eqb (pf_id p) (pf_id cur)
                 then upsert (prices p)
                        (fun x => String.eqb (pn_ticker x) tk)
                        (mkPriceNow tk price updatedAt)
                 else prices p)
              data).
Proof.
  set (now := mkPriceNow tk price updatedAt).
  set (f := fun x : PriceNow => String.eqb (pn_ticker x) tk).
  intro Hnd.
  assert (Core :
    NoDup (map pn_ticker (upsert quotes f now))
    /\ In now (upsert quotes f now)
    /\ (forall q, In q (upsert quotes f now) -> pn_ticker q = tk -> q = now)
    /\ (forall q, pn_ticker q <> tk ->
          (In q (upsert quotes f now) <-> In q quotes))).
  { induction quotes as [|x r IH].
    - rewrite upsert_nil. simpl. repeat split.
      + constructor; [intros []|constructor].
      + left. reflexivity.
      + intros q [<- | []] _. reflexivity.
      + intros [<- | []]. exfalso. apply H. reflexivity.
      + intros [].
    - inversion Hnd as [|? ? Hx Hr]; subst.
      rewrite upsert_cons. unfold f at 1 3 5 7.
      destruct (String.eqb (pn_ticker x) tk) eqn:E.
      + apply String.eqb_eq in E. repeat split.
        * simpl. constructor; [rewrite <- E; exact Hx | exact Hr].
        * left. reflexivity.
        * intros q [<- | Hq] Hk; [reflexivity|].
          exfalso. apply Hx. rewrite E, <- Hk. apply in_map. exact Hq.
        * intros [<- | Hq]; [exfalso; apply H; reflexivity|].
          right. exact Hq.
        * intros [<- | Hq]; [exfalso; apply H; exact E|].
          right. exact Hq.
      + apply String.eqb_neq in E.
        destruct (IH Hr) as (I1 & I2 & I3 & I4). repeat split.
        * simpl. constructor; [|exact I1].
          intro Hin. apply in_map_iff in Hin.
          destruct Hin as (q & Hk & Hq).
          destruct (string_dec (pn_ticker q) tk) as [Ht | Ht].
          -- apply E. rewrite <- Hk. exact Ht.
          -- apply Hx. rewrite <- Hk. apply in_map.
             apply (I4 q Ht). exact Hq.
        * right. exact I2.
        * intros q [<- | Hq] Hk; [contradiction|]. apply I3; assumption.
        * intros [<- | Hq]; [left; reflexivity|].
          right. apply (I4 q H). exact Hq.
        * intros [<- | Hq]; [left; reflexivity|].
          right. apply (I4 q H). exact Hq. }
  destruct Core as (C1 & C2 & C3 & C4).
  repeat split; auto; try (apply C4; assumption).
  intros cur data. unfold setPrice. rewrite map_map.
  apply map_ext. intro p.
  destruct (String.eqb (pf_id p) (pf_id cur)); reflexivity.
Qed.

Lemma upsert_quote_keeps_one_per_ticker_witness :
  NoDup (map pn_ticker
           (upsert (prices demo) (fun x => String.eqb (pn_ticker x) "VALE3")
                   (mkPriceNow "VALE3" (Fin 65) "2025-01-11T09:00:00.000Z")))
  /\ upsert (prices demo) (fun x => String.eqb (pn_ticker x) "VALE3")
            (mkPriceNow "VALE3" (Fin 65) "2025-01-11T09:00:00.000Z")
     = [ mkPriceNow "PETR4" (Fin (381 # 10)) "2025-01-10T12:00:00.000Z";
         mkPriceNow "VALE3" (Fin 65) "2025-01-11T09:00:00.000Z" ].
Proof.
  split; [|reflexivity].
  apply (@upsert_quote_keeps_one_per_ticker (prices demo) "VALE3"
           (Fin 65) "2025-01-11T09:00:00.000Z").
  simpl. constructor.
  - intros [H | []]. discriminate.
  - constructor; [intros []|constructor].
Defined.

(* ===================================================================== *)
(** * CSV import: the numeric cells *)
(* ===================================================================== *)

(** A string whose first non-blank character cannot start a numeric
    literal converts to [NaN]. *)
Lemma ofString_not_numeric (s : list ascii) (c : ascii) (r : list ascii) :
  Str.trim s = c :: r ->
  Num.startsNumeric c = false ->
  Num.ofString s = NaN.
Proof.
  intros Ht Hc. unfold Num.ofString. rewrite Ht. clear Ht s.
  destruct c as [[] [] [] [] [] [] [] []];
    try (vm_compute in Hc; discriminate Hc);
    reflexivity.
Qed.

Lemma ofCell_missing_or_empty :
  Num.ofCell None = JS.zero /\ Num.ofCell (Some []) = JS.zero.
Proof. split; reflexivity. Qed.

Section CsvFacts.

Variable uid : nat -> string.
Variable todayISO : string.

Lemma importStep_fold_In (header : list ascii) (rows : list (list ascii)) :
  forall (out : list Transaction) (t : Transaction),
    In t (fold_left (importStep uid todayISO header) rows out) ->
    In t out
    \/ exists (r : list ascii) (id : string),
         In r rows /\ rowToTransaction todayISO header id r = Some t.
Proof.
  induction rows as [|r rows IH]; intros out t H; simpl in H; [auto|].
  apply IH in H. destruct H as [H | (r' & id & Hr & E)].
  - unfold importStep in H.
    destruct (rowToTransaction todayISO header
                (uid (List.length out)) r) as [t'|] eqn:E; [|auto].
    apply in_app_iff in H. destruct H as [H | [<- | []]]; [auto|].
    right. exists r, (uid (List.length out)). simpl. auto.
  - right. exists r', id. simpl. auto.
Qed.

Lemma rowToTransaction_numbers (header : list ascii) (id : string)
    (r : list ascii) (t : Transaction) :
  rowToTransaction todayISO header id r = Some t ->
  tx_qty t = Num.ofCell (part (Str.split "," r) (idx header "qty"))
  /\ tx_price t = Num.ofCell (part (Str.split "," r) (idx header "price"))
  /\ tx_fees t
     = Some (match idx header "fees" with
             | Some _ =>
                 Num.ofCell (part (Str.split "," r) (idx header "fees"))
             | None => JS.zero
             end).
Proof.
  unfold rowToTransaction.
  destruct (negb (Str.nonEmpty _)); [discriminate|].
  intros [= <-]. simpl. repeat split; reflexivity.
Qed.

(** The numeric cells.  Every imported transaction comes from a data
    row of the text, and its [qty], [price] and [fees] are
    [Number(cell || 0)] of the row's cells under the header's columns:
    0 for a cell that is missing or empty, and [NaN], not 0, for a cell
    whose text cannot start a numeric literal. *)
Theorem csv_numbers_are_Number_of_cell (csv : string) (t : Transaction) :
  In t (csvToTransactions uid todayISO csv) ->
  (exists (h : list ascii) (rows : list (list ascii)) (r : list ascii),
     csvRows csv = h :: rows
     /\ In r rows
     /\ tx_qty t
        = Num.ofCell (part (Str.split "," r)
                           (idx (Str.toLowerCase h) "qty"))
     /\ tx_price t
        = Num.ofCell (part (Str.split "," r)
                           (idx (Str.toLowerCase h) "price"))
     /\ tx_fees t
        = Some (match idx (Str.toLowerCase h) "fees" with
                | Some _ =>
                    Num.ofCell (part (Str.split "," r)
                                     (idx (Str.toLowerCase h) "fees"))
                | None => JS.zero
                end))
  /\ Num.ofCell None = JS.zero
  /\ Num.ofCell (Some []) = JS.zero
  /\ (forall (s : list ascii) (c : ascii) (r : list ascii),
        Str.nonEmpty s = true ->
        Str.trim s = c :: r ->
        Num.startsNumeric c = false ->
        Num.ofCell (Some s) = NaN).
Proof.
  intro Hin. split; [|repeat split].
  - unfold csvToTransactions in Hin.
    destruct (csvRows csv) as [|h rows] eqn:Erows; [destruct Hin|].
    apply importStep_fold_In in Hin.
    destruct Hin as [[] | (r & id & Hr & E)].
    apply rowToTransaction_numbers in E.
    exists h, rows, r. intuition auto.
  - intros s c r Hs Ht Hc. unfold Num.ofCell. rewrite Hs.
    exact (ofString_not_numeric s Ht Hc).
Qed.

End CsvFacts.

(** C8 fails on the code: the quantity [abc] and the fees [x] are
    imported as [NaN], not as 0. *)
Lemma csv_text_in_number_cell_gives_NaN :
  exists t : Transaction,
    csvToTransactions exampleUid "2025-01-10" csvWithTextInNumbers = [t]
    /\ tx_qty t = NaN
    /\ tx_fees t = Some NaN
    /\ ~ tx_qty t =n= JS.zero.
Proof.
  eexists. split; [vm_compute; reflexivity|].
  simpl. repeat split. intros [].
Qed.

Lemma csv_numbers_are_Number_of_cell_witness :
  (exists t : Transaction,
     csvToTransactions exampleUid "2025-01-10" csvWithEmptyNumbers = [t]
     /\ tx_qty t = JS.zero
     /\ tx_fees t = Some JS.zero)
  /\ Num.ofCell (Some (list_ascii_of_string "abc")) = NaN.
Proof.
  split.
  - eexists. split; [vm_compute; reflexivity|].
    split; reflexivity.
  - destruct (@csv_numbers_are_Number_of_cell exampleUid "2025-01-10"
                csvWithEmptyNumbers
                (mkTransaction "id" "2024-01-01" "PETR4" BUY
                   JS.zero (Fin 10) (Some JS.zero)))
      as (_ & _ & _ & H).
    + vm_compute. left. reflexivity.
    + apply (H (list_ascii_of_string "abc") "a"%char
               (list_ascii_of_string "bc")); reflexivity.
Defined.

(* ===================================================================== *)
(** * Further properties of the calculation layer *)
(* ===================================================================== *)

(** ** The order of the output *)

Lemma sortInsert_Sorted {A : Type} (cmp : A -> A -> Z) :
  (forall a b, (0 <= cmp a b)%Z -> (cmp b a <= 0)%Z) ->
  forall (x : A) (l : list A),
    Sorted (fun a b => (cmp a b <= 0)%Z) l ->
    Sorted (fun a b => (cmp a b <= 0)%Z) (sortInsert cmp x l).
Proof.
  intros Hc x l. induction l as [|y r IH]; intro Hs; simpl.
  - constructor; constructor.
  - destruct (cmp x y <? 0)%Z eqn:E.
    + apply Z.ltb_lt in E. constructor; [exact Hs|].
      constructor. lia.
    + apply Z.ltb_ge in E. inversion Hs as [|? ? Hr Hhd]; subst.
      constructor; [apply IH; exact Hr|].
      destruct r as [|z r']; simpl.
      * constructor. apply Hc. exact E.
      * destruct (cmp x z <? 0)%Z.
        -- constructor. apply Hc. exact E.
        -- inversion Hhd; subst. constructor. assumption.
Qed.

Lemma sortBy_Sorted {A : Type} (cmp : A -> A -> Z) :
  (forall a b, (0 <= cmp a b)%Z -> (cmp b a <= 0)%Z) ->
  forall l : list A, Sorted (fun a b => (cmp a b <= 0)%Z) (sortBy cmp l).
Proof.
  intros Hc l. unfold sortBy.
  assert (G : forall acc,
            Sorted (fun a b => (cmp a b <= 0)%Z) acc ->
            Sorted (fun a b => (cmp a b <= 0)%Z)
              (fold_left (fun acc x => sortInsert cmp x acc) l acc)).
  { induction l as [|x l IH]; intros acc Hs; simpl; [exact Hs|].
    apply IH. apply sortInsert_Sorted; assumption. }
  apply G. constructor.
Qed.

(** X1.  When [localeCompare] is sign-consistent (if [a] does not come
    before [b] then [b] does not come after [a]), the output of
    [aggregatePositions] is in ascending order of ticker: no position is
    followed by one whose ticker compares before its own. *)
Theorem aggregatePositions_sorted_by_ticker
    (DateValue : string -> number) (localeCompare : string -> string -> Z)
    (p : PortfolioData) :
  (forall a b : string,
     (0 <= localeCompare a b)%Z -> (localeCompare b a <= 0)%Z) ->
  Sorted (fun a b => (localeCompare (ticker a) (ticker b) <= 0)%Z)
         (aggregatePositions DateValue localeCompare p).
Proof.
  intro Hc. unfold aggregatePositions.
  apply (sortBy_Sorted
           (fun a b : Position => localeCompare (ticker a) (ticker b))).
  intros a b. apply Hc.
Qed.

Lemma codeUnitCompare_sign (a b : string) :
  (0 <= codeUnitCompare a b)%Z -> (codeUnitCompare b a <= 0)%Z.
Proof.
  unfold codeUnitCompare. rewrite (String.compare_antisym a b).
  destruct (String.compare b a); simpl; lia.
Qed.

Lemma aggregatePositions_sorted_by_ticker_witness :
  Sorted (fun a b => (codeUnitCompare (ticker a) (ticker b) <= 0)%Z)
         (aggregatePositions isoDateValue codeUnitCompare demoWatch).
Proof.
  apply (@aggregatePositions_sorted_by_ticker isoDateValue codeUnitCompare
           demoWatch).
  exact codeUnitCompare_sign.
Defined.

(** ** More on [shareCountAtDate] *)

Lemma le_NaN_r (a : number) : JS.le a NaN = false.
Proof. destruct a; reflexivity. Qed.

Lemma le_NaN_l (a : number) : JS.le NaN a = false.
Proof. reflexivity. Qed.

Section ShareCountMore.

Variable DateValue : string -> number.

Lemma shareCount_skip_invalid (tk : string) (d : number)
    (txs : list Transaction) :
  forall acc : number,
    fold_left (shareCountStep DateValue tk d) txs acc
    = fold_left (shareCountStep DateValue tk d)
        (filter (fun t => negb (isNaN (DateValue (tx_date t)))) txs) acc.
Proof.
  induction txs as [|t txs IH]; intro acc; simpl; [reflexivity|].
  destruct (DateValue (tx_date t)) eqn:E; simpl; try apply IH.
  rewrite <- IH. f_equal. unfold shareCountStep. rewrite E.
  destruct (negb _); reflexivity.
Qed.

(** X2.  [shareCountAtDate] is 0 for a date that does not parse, whatever
    the transactions are; and a transaction whose own date does not parse
    is never counted: dropping such transactions leaves every share count
    as it is. *)
Theorem shareCountAtDate_invalid_dates
    (txs : list Transaction) (tk d : string) :
  (DateValue d = NaN -> shareCountAtDate DateValue txs tk d = JS.zero)
  /\ shareCountAtDate DateValue txs tk d
     = shareCountAtDate DateValue
         (filter (fun t => negb (isNaN (DateValue (tx_date t)))) txs) tk d.
Proof.
  split.
  - intro Hd. unfold shareCountAtDate. rewrite Hd.
    assert (G : forall acc,
              fold_left (shareCountStep DateValue tk NaN) txs acc = acc).
    { induction txs as [|t txs IH]; intro acc; simpl; [reflexivity|].
      rewrite IH. unfold shareCountStep. rewrite le_NaN_r.
      destruct (negb _); reflexivity. }
    rewrite G. reflexivity.
  - unfold shareCountAtDate. rewrite <- shareCount_skip_invalid.
    reflexivity.
Qed.

End ShareCountMore.

Lemma shareCountAtDate_invalid_dates_witness :
  shareCountAtDate isoDateValue [txBuy100; txSell50] "PETR4" "" = JS.zero.
Proof.
  apply (proj1 (@shareCountAtDate_invalid_dates isoDateValue
                  [txBuy100; txSell50] "PETR4" "")).
  reflexivity.
Defined.

Lemma costFold_qty_in_order (l : list Transaction) :
  forall q c : number,
    fst (fold_left costStep l (q, c))
    = fold_left JS.add
        (map (fun t => match tx_type t with
                       | BUY => tx_qty t
                       | SELL => JS.neg (tx_qty t)
                       end) l)
        q.
Proof.
  induction l as [|t l IH]; intros q c; cbn [fold_left map];
    [reflexivity|].
  assert (E : costStep (q, c) t
              = (JS.add q (match tx_type t with
                           | BUY => tx_qty t
                           | SELL => JS.neg (tx_qty t)
                           end),
                 snd (costStep (q, c) t))).
  { unfold costStep. destruct (tx_type t); reflexivity. }
  rewrite E. apply IH.
Qed.

Lemma quotePosition_fields (p : PortfolioData) (pr : PriceNow) :
  ticker (quotePosition p pr) = pn_ticker pr
  /\ qty (quotePosition p pr) = JS.zero
  /\ invested (quotePosition p pr) = JS.zero
  /\ avgPrice (quotePosition p pr) = JS.zero
  /\ lastPrice (quotePosition p pr) = pn_price pr
  /\ signal (quotePosition p pr)
     = quoteSignal (trigger (quotePosition p pr)) (pn_price pr).
Proof. repeat split; reflexivity. Qed.

Section PositionsMore.

Variable DateValue : string -> number.
Variable localeCompare : string -> string -> Z.

Local Abbreviation aggregate := (aggregatePositions DateValue localeCompare).

(** The quantity and cost of a position are the fold over the ticker's
    own transactions, whether it has any or not. *)
Lemma position_fold (p : PortfolioData) (pos : Position) :
  In pos (aggregate p) ->
  qty pos
  = fst (costFold (filter (tickerIs (ticker pos)) (transactions p)))
  /\ invested pos
     = snd (costFold (filter (tickerIs (ticker pos)) (transactions p)))
  /\ avgPrice pos = avgPriceOf (qty pos) (invested pos).
Proof.
  intro Hin.
  destruct (@aggregate_cases DateValue localeCompare p pos Hin)
    as [[_ E] | [Hno (pr & _ & E)]].
  - destruct (@positionOf_fields DateValue p (ticker pos)
                (filter (tickerIs (ticker pos)) (transactions p)))
      as (_ & Hq & Hc & Ha & _).
    rewrite <- E in Hq, Hc, Ha. auto.
  - apply filter_tickerIs_nil in Hno. rewrite Hno.
    rewrite E. repeat split; reflexivity.
Qed.

(** X4.  The quantity of every position is the sum, accumulated from 0 in
    stored order, of +qty for each BUY and -qty for each SELL of its
    ticker (no clamping: an oversold ticker has a negative quantity); and
    at a date on or after all of the ticker's transactions
    [shareCountAtDate] is that quantity clamped at zero. *)
Theorem position_qty_is_signed_sum (p : PortfolioData) (pos : Position) :
  In pos (aggregate p) ->
  qty pos
  = sumInOrder
      (map (fun t => match tx_type t with
                     | BUY => tx_qty t
                     | SELL => JS.neg (tx_qty t)
                     end)
           (filter (tickerIs (ticker pos)) (transactions p)))
  /\ (forall d : string,
        (forall t, In t (transactions p) -> tx_ticker t = ticker pos ->
                   JS.le (DateValue (tx_date t)) (DateValue d) = true) ->
        shareCountAtDate DateValue (transactions p) (ticker pos) d
        = JS.max (qty pos) JS.zero).
Proof.
  intro Hin. destruct (position_fold p pos Hin) as (Hq & _ & _).
  assert (Q : qty pos
              = sumInOrder
                  (map (fun t => match tx_type t with
                                 | BUY => tx_qty t
                                 | SELL => JS.neg (tx_qty t)
                                 end)
                       (filter (tickerIs (ticker pos)) (transactions p)))).
  { rewrite Hq. unfold costFold, sumInOrder.
    apply costFold_qty_in_order. }
  split; [exact Q|].
  intros d Hd. unfold shareCountAtDate.
  rewrite (@shareCount_loop_in_order DateValue).
  rewrite Q. unfold sumInOrder. do 3 f_equal.
  apply filter_ext_in. intros t Ht. unfold tickerIs, heldOn.
  destruct (String.eqb (tx_ticker t) (ticker pos)) eqn:E; [|reflexivity].
  apply String.eqb_eq in E. rewrite (Hd t Ht E). reflexivity.
Qed.

(** X5.  From one share up (finite values), the average price of a
    position is its cost basis divided by its quantity. *)
Theorem avgPrice_is_invested_over_qty_from_one_share
    (p : PortfolioData) (pos : Position) (n c : Q) :
  In pos (aggregate p) ->
  qty pos = Fin n ->
  invested pos = Fin c ->
  1 <= n ->
  avgPrice pos =n= JS.div (invested pos) (qty pos).
Proof.
  intros Hin Hq Hc Hn.
  destruct (position_fold p pos Hin) as (_ & _ & Ha).
  rewrite Ha, Hq, Hc. apply avgPriceOf_from_one_share. exact Hn.
Qed.

Lemma traded_hold_without_quote (p : PortfolioData) (pos : Position) :
  In pos (aggregate p) ->
  In (ticker pos) (map tx_ticker (transactions p)) ->
  (JS.gt (lastPrice pos) JS.zero = false -> signal pos = Signal.HOLD)
  /\ (~ In (ticker pos) (map pn_ticker (prices p)) ->
      lastPrice pos = JS.zero /\ signal pos = Signal.HOLD).
Proof.
  intros Hin Htx.
  pose proof (@traded_signal DateValue localeCompare p pos Hin Htx) as E.
  assert (H0 : JS.gt (lastPrice pos) JS.zero = false ->
               signal pos = Signal.HOLD).
  { intro Hlp. rewrite E.
    unfold signalByPrecedence, stopMatches, sellMatches, buyMatches.
    rewrite Hlp.
    destruct (trigger pos) as [t|]; [|reflexivity].
    destruct (trailingStopPct t), (sellPrice t), (buyPrice t);
      rewrite ?andb_false_r; reflexivity. }
  split; [exact H0|].
  intro Hno.
  assert (L : lastPrice pos = JS.zero).
  { destruct (@aggregate_cases DateValue localeCompare p pos Hin)
      as [[_ Ep] | [Hc _]]; [|contradiction].
    destruct (@positionOf_fields DateValue p (ticker pos)
                (filter (tickerIs (ticker pos)) (transactions p)))
      as (_ & _ & _ & _ & Hl & _).
    rewrite <- Ep in Hl. rewrite Hl.
    destruct (JSMap.get (priceMap p) (ticker pos)) as [v|] eqn:G;
      [|reflexivity].
    exfalso. apply Hno.
    assert (K : In (ticker pos) (JSMap.keys (priceMap p))).
    { apply keys_get. rewrite G. discriminate. }
    unfold priceMap, JSMap.ofEntries in K.
    assert (F : forall es (m : JSMap.t number) k,
              In k (JSMap.keys
                      (fold_left (fun m e => JSMap.set m (fst e) (snd e))
                                 es m)) ->
              In k (JSMap.keys m) \/ In k (map fst es)).
    { induction es as [|e es IH]; intros m k Hk; simpl in *; [auto|].
      apply IH in Hk. destruct Hk as [Hk | Hk]; [|auto].
      apply keys_set_in in Hk. destruct Hk as [Hk | ->]; auto. }
    apply F in K. destruct K as [[] | K].
    rewrite map_map in K. exact K. }
  split; [exact L|]. apply H0. rewrite L. reflexivity.
Qed.

(** X6.  A position of a traded ticker signals HOLD unless its last price
    is positive, whatever its trigger says; that is the case of a ticker
    that has no quote, whose last price is 0. *)
Theorem no_positive_quote_means_hold (p : PortfolioData) (pos : Position) :
  In pos (aggregate p) ->
  In (ticker pos) (map tx_ticker (transactions p)) ->
  (JS.gt (lastPrice pos) JS.zero = false -> signal pos = Signal.HOLD)
  /\ (~ In (ticker pos) (map pn_ticker (prices p)) ->
      lastPrice pos = JS.zero /\ signal pos = Signal.HOLD).
Proof. exact (traded_hold_without_quote p pos). Qed.

(** X7.  A portfolio without quotes raises no trigger signal: every
    position signals HOLD, so the list of trigger signals is empty. *)
Theorem no_quotes_no_trigger_signals (p : PortfolioData) :
  prices p = [] ->
  triggerSignals (aggregate p) = [].
Proof.
  intro Hp. unfold triggerSignals.
  assert (G : forall l : list Position,
            (forall x, In x l -> signal x = Signal.HOLD) ->
            filter (fun x => match signal x with
                             | Signal.HOLD => false
                             | _ => true
                             end) l = []).
  { induction l as [|x l IH]; intro H; simpl; [reflexivity|].
    rewrite (H x (or_introl eq_refl)). apply IH.
    intros y Hy. apply H. right. exact Hy. }
  apply G. intros pos Hin.
  assert (Htx : In (ticker pos) (map tx_ticker (transactions p))).
  { assert (K : In (ticker pos) (map ticker (aggregate p)))
      by (apply in_map; exact Hin).
    apply (@aggregate_tickers DateValue localeCompare p) in K.
    rewrite Hp in K. destruct K as [K | []]. exact K. }
  destruct (traded_hold_without_quote p pos Hin Htx) as [_ H].
  apply H. rewrite Hp. intros [].
Qed.

(** X8.  When the buy and the sell threshold both match, a ticker that
    has a quote and no transactions signals BUY, while a traded ticker
    signals SELL (unless its trailing stop fires). *)
Theorem both_thresholds_buy_if_only_quoted_sell_if_traded
    (p : PortfolioData) (pos : Position) (tr : Trigger) (b s : number) :
  In pos (aggregate p) ->
  trigger pos = Some tr ->
  buyPrice tr = Some b ->
  sellPrice tr = Some s ->
  JS.le (lastPrice pos) b = true ->
  JS.ge (lastPrice pos) s = true ->
  (~ In (ticker pos) (map tx_ticker (transactions p)) ->
   JS.truthy b = true ->
   signal pos = Signal.BUY)
  /\ (In (ticker pos) (map tx_ticker (transactions p)) ->
      JS.gt (lastPrice pos) JS.zero = true ->
      stopMatches (trigger pos) (lastPrice pos) (plPct pos) = false ->
      signal pos = Signal.SELL).
Proof.
  intros Hin Htr Hb Hs Hle Hge. split.
  - intros Hno Htb.
    destruct (@aggregate_cases DateValue localeCompare p pos Hin)
      as [[Htx _] | [_ (pr & _ & E)]]; [contradiction|].
    assert (Es : signal pos = quoteSignal (trigger pos) (lastPrice pos))
      by (rewrite E; reflexivity).
    rewrite Es, Htr. unfold quoteSignal, quoteBuyFires.
    rewrite Hb, Htb, Hle. reflexivity.
  - intros Htx Hlp Hst.
    rewrite (@traded_signal DateValue localeCompare p pos Hin Htx).
    unfold signalByPrecedence. rewrite Hst.
    rewrite Htr. unfold sellMatches. rewrite Hs, Hlp, Hge. reflexivity.
Qed.

(** X9.  The quantity, cost basis and average price of a ticker depend on
    that ticker's own transactions only: two portfolios that agree on
    them give the ticker the same three figures. *)
Theorem position_depends_on_own_transactions
    (p p' : PortfolioData) (tk : string) (pos pos' : Position) :
  filter (tickerIs tk) (transactions p)
  = filter (tickerIs tk) (transactions p') ->
  In pos (aggregate p) ->
  In pos' (aggregate p') ->
  ticker pos = tk ->
  ticker pos' = tk ->
  qty pos = qty pos'
  /\ invested pos = invested pos'
  /\ avgPrice pos = avgPrice pos'.
Proof.
  intros Hf Hin Hin' Ht Ht'.
  destruct (position_fold p pos Hin) as (Hq & Hc & Ha).
  destruct (position_fold p' pos' Hin') as (Hq' & Hc' & Ha').
  rewrite Ht in Hq, Hc. rewrite Ht' in Hq', Hc'.
  rewrite Hf in Hq, Hc.
  assert (Eq : qty pos = qty pos') by congruence.
  assert (Ec : invested pos = invested pos') by congruence.
  repeat split; try assumption.
  rewrite Ha, Ha', Eq, Ec. reflexivity.
Qed.

End PositionsMore.

Lemma position_qty_is_signed_sum_witness :
  shareCountAtDate isoDateValue (transactions scenario) "PETR4" "2024-02-15"
  = JS.max (qty (tradedPosition scenario "PETR4")) JS.zero.
Proof.
  destruct (@position_qty_is_signed_sum isoDateValue codeUnitCompare
              scenario (tradedPosition scenario "PETR4")) as [_ H].
  - vm_compute. left. reflexivity.
  - apply (H "2024-02-15"%string).
    intros t [<- | [<- | []]] _; reflexivity.
Defined.

Lemma avgPrice_is_invested_over_qty_from_one_share_witness :
  avgPrice (tradedPosition scenario "PETR4")
  =n= JS.div (invested (tradedPosition scenario "PETR4"))
             (qty (tradedPosition scenario "PETR4")).
Proof.
  apply (@avgPrice_is_invested_over_qty_from_one_share isoDateValue
           codeUnitCompare scenario (tradedPosition scenario "PETR4")
           (0 + 100 + - 50)
           (0 + (100 * (3750 # 100) + 0)
            + - ((0 + (100 * (3750 # 100) + 0)) / (0 + 100) * 50)
            + (110 # 100))).
  - vm_compute. left. reflexivity.
  - reflexivity.
  - reflexivity.
  - vm_compute. discriminate.
Defined.

Lemma no_positive_quote_means_hold_witness :
  lastPrice (tradedPosition halfShare "FRAC3") = JS.zero
  /\ signal (tradedPosition halfShare "FRAC3") = Signal.HOLD.
Proof.
  destruct (@no_positive_quote_means_hold isoDateValue codeUnitCompare
              halfShare (tradedPosition halfShare "FRAC3")) as [_ H].
  - vm_compute. left. reflexivity.
  - left. reflexivity.
  - apply H. intros [].
Defined.

Lemma both_thresholds_buy_if_only_quoted_sell_if_traded_witness :
  signal (quotePosition watchBothThresholds
            (mkPriceNow "ABEV3" (Fin 50) "2024-03-02T12:00:00.000Z"))
  = Signal.BUY
  /\ signal (tradedPosition bothThresholds "ABEV3") = Signal.SELL.
Proof.
  split.
  - assert (Hin : In (quotePosition watchBothThresholds
                        (mkPriceNow "ABEV3" (Fin 50)
                           "2024-03-02T12:00:00.000Z"))
                     (aggregatePositions isoDateValue codeUnitCompare
                        watchBothThresholds))
      by (vm_compute; left; reflexivity).
    destruct (@both_thresholds_buy_if_only_quoted_sell_if_traded
                isoDateValue codeUnitCompare watchBothThresholds _
                (mkTrigger "ABEV3" (Some (Fin 60)) (Some (Fin 40)) None None)
                (Fin 60) (Fin 40) Hin eq_refl eq_refl eq_refl eq_refl
                eq_refl) as [H _].
    apply H; [intros [] | reflexivity].
  - assert (Hin : In (tradedPosition bothThresholds "ABEV3")
                     (aggregatePositions isoDateValue codeUnitCompare
                        bothThresholds))
      by (vm_compute; left; reflexivity).
    destruct (@both_thresholds_buy_if_only_quoted_sell_if_traded
                isoDateValue codeUnitCompare bothThresholds _
                (mkTrigger "ABEV3" (Some (Fin 60)) (Some (Fin 40)) None None)
                (Fin 60) (Fin 40) Hin eq_refl eq_refl eq_refl eq_refl
                eq_refl) as [_ H].
    apply H; [left; reflexivity | reflexivity | reflexivity].
Defined.

Lemma position_depends_on_own_transactions_witness :
  qty (tradedPosition scenario "PETR4")
  = qty (tradedPosition scenarioPlusOther "PETR4")
  /\ invested (tradedPosition scenario "PETR4")
     = invested (tradedPosition scenarioPlusOther "PETR4")
  /\ avgPrice (tradedPosition scenario "PETR4")
     = avgPrice (tradedPosition scenarioPlusOther "PETR4").
Proof.
  apply (@position_depends_on_own_transactions isoDateValue codeUnitCompare
           scenario scenarioPlusOther "PETR4").
  - reflexivity.
  - vm_compute. left. reflexivity.
  - vm_compute. left. reflexivity.
  - reflexivity.
  - reflexivity.
Defined.

(** ** Which quote and which trigger a position shows *)

Lemma ofEntries_snoc {V : Type} (es : list (string * V)) (e : string * V) :
  JSMap.ofEntries (es ++ [e])
  = JSMap.set (JSMap.ofEntries es) (fst e) (snd e).
Proof. unfold JSMap.ofEntries. rewrite fold_left_app. reflexivity. Qed.

(** [new Map(entries).get(k)] is the value of the last entry with key
    [k]. *)
Lemma ofEntries_get {V : Type} (es : list (string * V)) (k : string) :
  JSMap.get (JSMap.ofEntries es) k
  = option_map snd (find (fun e => String.eqb (fst e) k) (rev es)).
Proof.
  induction es as [|e es IH] using rev_ind.
  - reflexivity.
  - rewrite ofEntries_snoc, get_set, rev_app_distr. simpl.
    destruct (String.eqb (fst e) k); [reflexivity | exact IH].
Qed.

Lemma find_map {A B : Type} (g : A -> B) (f : B -> bool) (l : list A) :
  find f (map g l) = option_map g (find (fun x => f (g x)) l).
Proof.
  induction l as [|x l IH]; simpl; [reflexivity|].
  destruct (f (g x)); [reflexivity | exact IH].
Qed.

Lemma priceMap_get (p : PortfolioData) (tk : string) :
  JSMap.get (priceMap p) tk
  = option_map pn_price (find (quoteIs tk) (rev (prices p))).
Proof.
  unfold priceMap. rewrite ofEntries_get, <- map_rev, find_map. simpl.
  destruct (find _ (rev (prices p))); reflexivity.
Qed.

Lemma trigMap_get (p : PortfolioData) (tk : string) :
  JSMap.get (trigMap p) tk = find (triggerIs tk) (rev (triggers p)).
Proof.
  unfold trigMap. rewrite ofEntries_get, <- map_rev, find_map. simpl.
  destruct (find _ (rev (triggers p))); reflexivity.
Qed.

Lemma find_first {A : Type} (f : A -> bool) (l1 : list A) (x : A)
    (l2 : list A) :
  (forall y, In y l1 -> f y = false) -> f x = true ->
  find f (l1 ++ x :: l2) = Some x.
Proof.
  intros H1 Hx. induction l1 as [|y l1 IH]; simpl.
  - rewrite Hx. reflexivity.
  - rewrite (H1 y (or_introl eq_refl)). apply IH.
    intros z Hz. apply H1. right. exact Hz.
Qed.

Lemma find_by_ticker_None (k : string) (l : list Position) :
  find (fun x => String.eqb (ticker x) k) l = None
  <-> ~ In k (map ticker l).
Proof.
  induction l as [|x l IH]; simpl.
  - split; [intros _ [] | reflexivity].
  - destruct (String.eqb (ticker x) k) eqn:E.
    + apply String.eqb_eq in E. split; [discriminate|].
      intro H. exfalso. apply H. left. exact E.
    + apply String.eqb_neq in E. rewrite IH. split.
      * intros H [H1 | H1]; [exact (E H1) | exact (H H1)].
      * intros H H1. apply H. right. exact H1.
Qed.

Lemma addQuoteOnly_incl (p : PortfolioData) (acc : list Position)
    (pr : PriceNow) (k : string) :
  In k (map ticker acc) -> In k (map ticker (addQuoteOnly p acc pr)).
Proof.
  intro H. unfold addQuoteOnly. destruct (find _ acc); [exact H|].
  rewrite map_app, in_app_iff. auto.
Qed.

Lemma addQuoteOnly_has (p : PortfolioData) (acc : list Position)
    (pr : PriceNow) :
  In (pn_ticker pr) (map ticker (addQuoteOnly p acc pr)).
Proof.
  unfold addQuoteOnly. destruct (find _ acc) eqn:F.
  - destruct (in_dec string_dec (pn_ticker pr) (map ticker acc))
      as [H | H]; [exact H|].
    apply find_by_ticker_None in H. congruence.
  - rewrite map_app, in_app_iff. right. left. reflexivity.
Qed.

(** The quote that the loop over the quotes turns into a position is the
    first one of its ticker. *)
Lemma addQuoteOnly_first (p : PortfolioData) (prs : list PriceNow) :
  forall (acc : list Position) (pos : Position),
    In pos (fold_left (addQuoteOnly p) prs acc) ->
    In pos acc
    \/ exists l1 pr l2,
         prs = l1 ++ pr :: l2
         /\ pos = quotePosition p pr
         /\ ~ In (pn_ticker pr) (map pn_ticker l1)
         /\ ~ In (pn_ticker pr) (map ticker acc).
Proof.
  induction prs as [|pr0 prs IH]; intros acc pos H; simpl in *; [auto|].
  apply IH in H. destruct H as [H | (l1 & pr & l2 & E & Ep & H1 & H2)].
  - unfold addQuoteOnly in H.
    destruct (find _ acc) eqn:Fa; [auto|].
    apply in_app_iff in H. destruct H as [H | [<- | []]]; [auto|].
    right. exists [], pr0, prs. repeat split.
    + intros [].
    + apply find_by_ticker_None. exact Fa.
  - right. exists (pr0 :: l1), pr, l2. repeat split.
    + rewrite E. reflexivity.
    + exact Ep.
    + simpl. intros [Eq | Hin]; [|exact (H1 Hin)].
      apply H2. rewrite <- Eq. apply addQuoteOnly_has.
    + intro Hin. apply H2. apply addQuoteOnly_incl. exact Hin.
Qed.

Section QuoteSource.

Variable DateValue : string -> number.
Variable localeCompare : string -> string -> Z.

Local Abbreviation aggregate := (aggregatePositions DateValue localeCompare).

Lemma quote_and_trigger_source (p : PortfolioData) (pos : Position) :
  In pos (aggregate p) ->
  (In (ticker pos) (map tx_ticker (transactions p)) ->
   lastPrice pos
   = JS.opt_or0 (option_map pn_price
                   (find (quoteIs (ticker pos)) (rev (prices p))))
   /\ trigger pos = find (triggerIs (ticker pos)) (rev (triggers p)))
  /\ (~ In (ticker pos) (map tx_ticker (transactions p)) ->
      option_map pn_price (find (quoteIs (ticker pos)) (prices p))
      = Some (lastPrice pos)
      /\ trigger pos = find (triggerIs (ticker pos)) (triggers p)).
Proof.
  intro Hin. split.
  - intro Htx.
    destruct (@aggregate_cases DateValue localeCompare p pos Hin)
      as [[_ E] | [Hno _]]; [|contradiction].
    destruct (@positionOf_fields DateValue p (ticker pos)
                (filter (tickerIs (ticker pos)) (transactions p)))
      as (_ & _ & _ & _ & Hl & Ht & _).
    rewrite <- E in Hl, Ht.
    rewrite Hl, Ht, priceMap_get, trigMap_get. auto.
  - intro Hno.
    apply aggregate_In in Hin. unfold positionsUnsorted in Hin.
    apply addQuoteOnly_first in Hin.
    destruct Hin as [Hin | (l1 & pr & l2 & E & Ep & H1 & _)].
    + exfalso. apply Hno. apply txByTicker_keys.
      rewrite <- (@positionOf_tickers DateValue p).
      apply in_map. exact Hin.
    + rewrite Ep, E. simpl.
      rewrite (@find_first _ (quoteIs (pn_ticker pr)) l1 pr l2).
      * auto.
      * intros y Hy. unfold quoteIs.
        apply String.eqb_neq. intro Eq. apply H1. rewrite <- Eq.
        apply in_map. exact Hy.
      * unfold quoteIs. apply String.eqb_refl.
Qed.

(** X11.  When a ticker has several quotes or several triggers, a traded
    ticker shows the last quote (0 when there is none, or when its price
    is falsy) and the last trigger, while a ticker without transactions
    shows the first quote and the first trigger. *)
Theorem traded_shows_last_quote_watched_shows_first
    (p : PortfolioData) (pos : Position) :
  In pos (aggregate p) ->
  (In (ticker pos) (map tx_ticker (transactions p)) ->
   lastPrice pos
   = JS.opt_or0 (option_map pn_price
                   (find (quoteIs (ticker pos)) (rev (prices p))))
   /\ trigger pos = find (triggerIs (ticker pos)) (rev (triggers p)))
  /\ (~ In (ticker pos) (map tx_ticker (transactions p)) ->
      option_map pn_price (find (quoteIs (ticker pos)) (prices p))
      = Some (lastPrice pos)
      /\ trigger pos = find (triggerIs (ticker pos)) (triggers p)).
Proof. intro Hin. exact (quote_and_trigger_source p pos Hin). Qed.

End QuoteSource.

Lemma traded_shows_last_quote_watched_shows_first_witness :
  lastPrice (tradedPosition demo "PETR4") = Fin (381 # 10)
  /\ option_map pn_price (find (quoteIs "ITUB4") (prices demoWatch))
     = Some (lastPrice (quotePosition demoWatch quoteITUB4)).
Proof.
  split.
  - destruct (@traded_shows_last_quote_watched_shows_first isoDateValue
                codeUnitCompare demo (tradedPosition demo "PETR4"))
      as [H _].
    + vm_compute. left. reflexivity.
    + destruct H as [H _]; [left; reflexivity|].
      rewrite H. reflexivity.
  - destruct (@traded_shows_last_quote_watched_shows_first isoDateValue
                codeUnitCompare demoWatch
                (quotePosition demoWatch quoteITUB4)) as [_ H].
    + vm_compute. left. reflexivity.
    + destruct H as [H _].
      * vm_compute. intros [H1 | [H1 | []]]; discriminate.
      * exact H.
Defined.

(* ===================================================================== *)
(** * Further properties of [upsert] and of the state updates *)
(* ===================================================================== *)

Lemma findIndex_None {T : Type} (f : T -> bool) (l : list T) :
  findIndex f l = None <-> (forall x, In x l -> f x = false).
Proof.
  induction l as [|x l IH]; simpl.
  - split; [intros _ y [] | reflexivity].
  - destruct (f x) eqn:E.
    + split; [discriminate|]. intro H.
      rewrite (H x (or_introl eq_refl)) in E. discriminate.
    + destruct (findIndex f l) as [i|] eqn:F.
      * split; [discriminate|]. intro H. exfalso.
        assert (N : Some i = None)
          by (apply IH; intros y Hy; apply H; right; exact Hy).
        discriminate N.
      * split; [|reflexivity]. intros _ y [<- | Hy]; [exact E|].
        apply IH; [reflexivity | exact Hy].
Qed.

(** X12.  [upsert] changes one place only: when no element matches, the
    new element goes to the end; otherwise it takes the place of the
    first match, later matches and every other element staying where
    they are. *)
Theorem upsert_replaces_first_match_or_appends
    {T : Type} (f : T -> bool) (next : T) (arr : list T) :
  ((forall x, In x arr -> f x = false) -> upsert arr f next = arr ++ [next])
  /\ (forall (l1 : list T) (x : T) (l2 : list T),
        arr = l1 ++ x :: l2 ->
        (forall y, In y l1 -> f y = false) ->
        f x = true ->
        upsert arr f next = l1 ++ next :: l2).
Proof.
  split.
  - intro H. unfold upsert.
    destruct (findIndex f arr) eqn:F; [|reflexivity].
    apply findIndex_None in H. congruence.
  - intros l1 x l2 -> H1 Hx.
    induction l1 as [|y l1 IH]; simpl.
    + rewrite upsert_cons, Hx. reflexivity.
    + rewrite upsert_cons, (H1 y (or_introl eq_refl)).
      f_equal. apply IH. intros z Hz. apply H1. right. exact Hz.
Qed.

Lemma upsert_replaces_first_match_or_appends_witness :
  upsert twoTriggers (triggerIs "PETR4")
         (mkTrigger "PETR4" None None (Some (Fin 8)) None)
  = [ mkTrigger "PETR4" None None (Some (Fin 8)) None;
      mkTrigger "VALE3" (Some (Fin 60)) None None None;
      mkTrigger "PETR4" None (Some (Fin 42)) None None ].
Proof.
  apply (proj2 (@upsert_replaces_first_match_or_appends Trigger
                  (triggerIs "PETR4")
                  (mkTrigger "PETR4" None None (Some (Fin 8)) None)
                  twoTriggers)
           [] (mkTrigger "PETR4" (Some (Fin 37)) None None None)
           [ mkTrigger "VALE3" (Some (Fin 60)) None None None;
             mkTrigger "PETR4" None (Some (Fin 42)) None None ]).
  - reflexivity.
  - intros y [].
  - reflexivity.
Defined.

(** [upsert] on a list with one element per key, keyed on the key of the
    new element. *)
Lemma upsert_keyed {T : Type} (key : T -> string) (k : string) (next : T)
    (l : list T) :
  key next = k ->
  NoDup (map key l) ->
  NoDup (map key (upsert l (fun x => String.eqb (key x) k) next))
  /\ In next (upsert l (fun x => String.eqb (key x) k) next)
  /\ (forall q, In q (upsert l (fun x => String.eqb (key x) k) next) ->
        key q = k -> q = next)
  /\ (forall q, key q <> k ->
        (In q (upsert l (fun x => String.eqb (key x) k) next) <-> In q l)).
Proof.
  intros Hk. set (f := fun x : T => String.eqb (key x) k).
  induction l as [|x r IH]; intro Hnd.
  - rewrite upsert_nil. simpl. repeat split.
    + constructor; [intros []|constructor].
    + left. reflexivity.
    + intros q [<- | []] _. reflexivity.
    + intros [<- | []]. contradiction.
    + intros [].
  - inversion Hnd as [|? ? Hx Hr]; subst.
    rewrite upsert_cons. unfold f at 1 3 5 7.
    destruct (String.eqb (key x) (key next)) eqn:E.
    + apply String.eqb_eq in E. repeat split.
      * simpl. constructor; [rewrite <- E; exact Hx | exact Hr].
      * left. reflexivity.
      * intros q [<- | Hq] Hq'; [reflexivity|].
        exfalso. apply Hx. rewrite E, <- Hq'. apply in_map. exact Hq.
      * intros [<- | Hq]; [contradiction|]. right. exact Hq.
      * intros [<- | Hq]; [exfalso; apply H; exact E|]. right. exact Hq.
    + apply String.eqb_neq in E.
      destruct (IH Hr) as (I1 & I2 & I3 & I4). repeat split.
      * simpl. constructor; [|exact I1].
        intro Hin. apply in_map_iff in Hin.
        destruct Hin as (q & Hq' & Hq).
        destruct (string_dec (key q) (key next)) as [Ht | Ht].
        -- apply E. rewrite <- Hq'. exact Ht.
        -- apply Hx. rewrite <- Hq'. apply in_map.
           apply (I4 q Ht). exact Hq.
      * right. exact I2.
      * intros q [<- | Hq] Hq'; [contradiction|]. apply I3; assumption.
      * intros [<- | Hq]; [left; reflexivity|].
        right. apply (I4 q H). exact Hq.
      * intros [<- | Hq]; [left; reflexivity|].
        right. apply (I4 q H). exact Hq.
Qed.

Lemma find_upsert {T : Type} (f : T -> bool) (next : T) (l : list T) :
  f next = true -> find f (upsert l f next) = Some next.
Proof.
  intro Hn. induction l as [|x r IH].
  - rewrite upsert_nil. simpl. rewrite Hn. reflexivity.
  - rewrite upsert_cons. destruct (f x) eqn:E; simpl.
    + rewrite Hn. reflexivity.
    + rewrite E. exact IH.
Qed.

Lemma updateCurrent_In (cur p : PortfolioData)
    (f : PortfolioData -> PortfolioData) (data : list PortfolioData) :
  In p data -> pf_id p = pf_id cur -> In (f p) (updateCurrent cur f data).
Proof.
  intros Hin Hid. unfold updateCurrent. apply in_map_iff.
  exists p. split; [|exact Hin].
  assert (E : String.eqb (pf_id p) (pf_id cur) = true)
    by (rewrite Hid; apply String.eqb_refl).
  rewrite E. reflexivity.
Qed.

Section StateUpdates.

Variable DateValue : string -> number.
Variable localeCompare : string -> string -> Z.

Local Abbreviation aggregate := (aggregatePositions DateValue localeCompare).

(** X13.  After [setPrice] writes a truthy price for a ticker in the
    current portfolio, whose quotes had at most one entry per ticker, the
    positions of that portfolio include the ticker, and its position
    shows the price just written as last price. *)
Theorem setPrice_shows_in_positions
    (cur : PortfolioData) (stamp tk : string) (price : number)
    (data : list PortfolioData) (p : PortfolioData) :
  In p data ->
  pf_id p = pf_id cur ->
  NoDup (map pn_ticker (prices p)) ->
  JS.truthy price = true ->
  In (withPrices p (upsert (prices p) (quoteIs tk)
                      (mkPriceNow tk price stamp)))
     (setPrice (Some cur) stamp tk price data)
  /\ (exists pos,
        In pos (aggregate (withPrices p (upsert (prices p) (quoteIs tk)
                                           (mkPriceNow tk price stamp))))
        /\ ticker pos = tk)
  /\ (forall pos,
        In pos (aggregate (withPrices p (upsert (prices p) (quoteIs tk)
                                           (mkPriceNow tk price stamp)))) ->
        ticker pos = tk ->
        lastPrice pos = price).
Proof.
  intros Hin Hid Hnd Htr.
  set (now := mkPriceNow tk price stamp).
  set (p' := withPrices p (upsert (prices p) (quoteIs tk) now)).
  destruct (@upsert_keyed PriceNow pn_ticker tk now (prices p)
              eq_refl Hnd) as (_ & Hnow & Huniq & _).
  change (fun x : PriceNow => String.eqb (pn_ticker x) tk)
    with (quoteIs tk) in Hnow, Huniq.
  assert (Hq : quoteIs tk now = true) by apply String.eqb_refl.
  assert (Hfind : forall l, (forall q, In q l <-> In q (prices p')) ->
                            find (quoteIs tk) l = Some now).
  { intros l Hl. destruct (find (quoteIs tk) l) as [q|] eqn:F.
    - apply find_some in F. destruct F as [Fq Ft].
      f_equal. apply Huniq.
      + apply Hl in Fq. exact Fq.
      + apply String.eqb_eq. exact Ft.
    - exfalso.
      pose proof (find_none _ _ F now (proj2 (Hl now) Hnow)) as C.
      congruence. }
  split; [|split].
  - unfold setPrice. apply in_map_iff. exists p. split; [|exact Hin].
    assert (E : String.eqb (pf_id p) (pf_id cur) = true)
      by (rewrite Hid; apply String.eqb_refl).
    rewrite E. reflexivity.
  - assert (K : In tk (map ticker (aggregate p'))).
    { apply (@aggregate_tickers DateValue localeCompare p').
      right. apply in_map_iff. exists now. split; [reflexivity|].
      exact Hnow. }
    apply in_map_iff in K. destruct K as (pos & Ht & Hp).
    exists pos. auto.
  - intros pos Hp Ht.
    destruct (@quote_and_trigger_source DateValue localeCompare p' pos Hp)
      as [Htraded Hwatched].
    destruct (in_dec string_dec (ticker pos)
                (map tx_ticker (transactions p'))) as [Htx | Hno].
    + destruct (Htraded Htx) as [Hl _]. rewrite Hl, Ht.
      rewrite (Hfind (rev (prices p'))).
      * simpl. unfold JS.or0. rewrite Htr. reflexivity.
      * intro q. symmetry. apply in_rev.
    + destruct (Hwatched Hno) as [Hl _]. rewrite Ht in Hl.
      rewrite (Hfind (prices p')) in Hl; [|intro q; reflexivity].
      simpl in Hl. injection Hl as Hl. symmetry. exact Hl.
Qed.

End StateUpdates.

Lemma setPrice_shows_in_positions_witness :
  lastPrice
    (quotePosition
       (withPrices demo
          (upsert (prices demo) (quoteIs "ITUB4")
             (mkPriceNow "ITUB4" (Fin 30) "2025-01-11T09:00:00.000Z")))
       (mkPriceNow "ITUB4" (Fin 30) "2025-01-11T09:00:00.000Z"))
  = Fin 30.
Proof.
  destruct (@setPrice_shows_in_positions isoDateValue codeUnitCompare
              demo "2025-01-11T09:00:00.000Z" "ITUB4" (Fin 30) [demo] demo)
    as (_ & _ & H).
  - left. reflexivity.
  - reflexivity.
  - simpl. constructor.
    + intros [H | []]. discriminate.
    + constructor; [intros []|constructor].
  - reflexivity.
  - apply H.
    + vm_compute. left. reflexivity.
    + reflexivity.
Defined.

Lemma setTrigger_reads_back_aux
    (cur : PortfolioData) (tick : string) (tr : TriggerPatch)
    (data : list PortfolioData) (p : PortfolioData) :
  pt_ticker tr = None ->
  In p data ->
  pf_id p = pf_id cur ->
  exists p' : PortfolioData,
    In p' (setTrigger (Some cur) tick tr data)
    /\ pf_id p' = pf_id p
    /\ find (triggerIs tick) (triggers p')
       = Some (spreadTrigger
                 (match find (triggerIs tick) (triggers cur) with
                  | Some found => found
                  | None => mkTrigger tick None None None None
                  end) tr)
    /\ (NoDup (map tr_ticker (triggers p)) ->
        NoDup (map tr_ticker (triggers p'))).
Proof.
  intros Hpt Hin Hid.
  set (base := match find (triggerIs tick) (triggers cur) with
               | Some found => found
               | None => mkTrigger tick None None None None
               end).
  set (next := spreadTrigger base tr).
  assert (Hb : tr_ticker base = tick).
  { unfold base. destruct (find (triggerIs tick) (triggers cur)) eqn:F.
    - apply find_some in F. destruct F as [_ F].
      apply String.eqb_eq. exact F.
    - reflexivity. }
  assert (Hn : tr_ticker next = tick).
  { unfold next, spreadTrigger. simpl. rewrite Hpt. exact Hb. }
  exists (withTriggers p (upsert (triggers p) (triggerIs tick) next)).
  split; [|split; [reflexivity|split]].
  - unfold setTrigger.
    apply (@updateCurrent_In cur p
             (fun p0 => withTriggers p0
                          (upsert (triggers p0)
                             (fun x => String.eqb (tr_ticker x) tick)
                             next)));
      assumption.
  - simpl. apply find_upsert. unfold triggerIs. rewrite Hn.
    apply String.eqb_refl.
  - intro Hnd. simpl.
    exact (proj1 (@upsert_keyed Trigger tr_ticker tick next (triggers p)
                    Hn Hnd)).
Qed.

(** X14.  Reading back after [setTrigger]: for a patch without a ticker
    key, the first trigger of the ticker in the updated portfolio is the
    previous one (of [current], or an empty one) overlaid with the keys
    that the patch has, a key holding [undefined] clearing the field; and
    a list with at most one trigger per ticker stays so. *)
Theorem setTrigger_reads_back_the_merge
    (cur : PortfolioData) (tick : string) (tr : TriggerPatch)
    (data : list PortfolioData) (p : PortfolioData) :
  pt_ticker tr = None ->
  In p data ->
  pf_id p = pf_id cur ->
  exists p' : PortfolioData,
    In p' (setTrigger (Some cur) tick tr data)
    /\ pf_id p' = pf_id p
    /\ find (triggerIs tick) (triggers p')
       = Some (spreadTrigger
                 (match find (triggerIs tick) (triggers cur) with
                  | Some found => found
                  | None => mkTrigger tick None None None None
                  end) tr)
    /\ (NoDup (map tr_ticker (triggers p)) ->
        NoDup (map tr_ticker (triggers p'))).
Proof. exact (@setTrigger_reads_back_aux cur tick tr data p). Qed.

Lemma spreadTrigger_form (base : Trigger) (buy sell stop : option number)
    (nt : string) :
  spreadTrigger base (triggerFormPatch buy sell stop nt)
  = mkTrigger (tr_ticker base) buy sell stop (Some nt).
Proof. reflexivity. Qed.

(** X15.  Submitting the trigger form for a ticker replaces its whole
    trigger: afterwards the ticker's first trigger holds exactly the three
    thresholds of the form, so a field left empty clears the threshold
    that was stored before. *)
Theorem triggerForm_replaces_all_thresholds
    (cur : PortfolioData) (sel : string) (buy sell stop : option number)
    (nt : string) (data : list PortfolioData) (p : PortfolioData) :
  sel <> ""%string ->
  In p data ->
  pf_id p = pf_id cur ->
  exists p' : PortfolioData,
    In p' (triggerFormSubmit (Some cur) sel buy sell stop nt data)
    /\ pf_id p' = pf_id p
    /\ find (triggerIs sel) (triggers p')
       = Some (mkTrigger sel buy sell stop (Some nt)).
Proof.
  intros Hsel Hin Hid.
  destruct (@setTrigger_reads_back_aux cur sel
              (triggerFormPatch buy sell stop nt) data p eq_refl Hin Hid)
    as (p' & H1 & H2 & H3 & _).
  exists p'. split; [|split; [exact H2|]].
  - unfold triggerFormSubmit.
    apply String.eqb_neq in Hsel. rewrite Hsel. exact H1.
  - rewrite H3, spreadTrigger_form. f_equal. f_equal.
    destruct (find (triggerIs sel) (triggers cur)) eqn:F; [|reflexivity].
    apply find_some in F. destruct F as [_ F].
    apply String.eqb_eq. exact F.
Qed.

(** X16.  Removing the transaction that [addTx] has just added, under an
    identifier that no transaction of the current portfolio carried
    before, gives back the state as it was. *)
Theorem removeTx_undoes_addTx
    (cur : PortfolioData) (id : string) (tx : Transaction)
    (data : list PortfolioData) :
  (forall p t, In p data -> pf_id p = pf_id cur ->
               In t (transactions p) -> tx_id t <> id) ->
  removeTx (Some cur) id (addTx (Some cur) id tx data) = data.
Proof.
  intro Hfresh. unfold removeTx, addTx, updateCurrent.
  rewrite map_map. rewrite <- (map_id data) at 2.
  apply map_ext_in. intros p Hp.
  destruct (String.eqb (pf_id p) (pf_id cur)) eqn:E.
  - simpl. rewrite E. unfold withTransactions. simpl.
    rewrite filter_app. simpl. rewrite String.eqb_refl. simpl.
    rewrite app_nil_r.
    assert (F : filter (fun t => negb (String.eqb (tx_id t) id))
                       (transactions p) = transactions p).
    { apply String.eqb_eq in E.
      assert (G : forall l : list Transaction,
                (forall t, In t l -> tx_id t <> id) ->
                filter (fun t => negb (String.eqb (tx_id t) id)) l = l).
      { induction l as [|t l IH]; intro H; simpl; [reflexivity|].
        assert (Ht : String.eqb (tx_id t) id = false)
          by (apply String.eqb_neq; apply H; left; reflexivity).
        rewrite Ht. simpl. f_equal. apply IH.
        intros t' Ht'. apply H. right. exact Ht'. }
      apply G. intros t Ht. exact (Hfresh p t Hp E Ht). }
    rewrite F. destruct p; reflexivity.
  - rewrite E. reflexivity.
Qed.

Lemma setTrigger_reads_back_the_merge_witness :
  exists p' : PortfolioData,
    In p' (setTrigger (Some demo) "VALE3"
             (mkTriggerPatch None None (Some (Some (Fin 70))) (Some None)
                None)
             [demo])
    /\ pf_id p' = pf_id demo
    /\ find (triggerIs "VALE3") (triggers p')
       = Some (mkTrigger "VALE3" (Some (Fin 60)) (Some (Fin 70)) None None)
    /\ (NoDup (map tr_ticker (triggers demo)) ->
        NoDup (map tr_ticker (triggers p'))).
Proof.
  apply (@setTrigger_reads_back_the_merge demo "VALE3"
           (mkTriggerPatch None None (Some (Some (Fin 70))) (Some None) None)
           [demo] demo).
  - reflexivity.
  - left. reflexivity.
  - reflexivity.
Defined.

Lemma triggerForm_replaces_all_thresholds_witness :
  exists p' : PortfolioData,
    In p' (triggerFormSubmit (Some demo) "PETR4"
             None (Some (Fin 45)) None "" [demo])
    /\ pf_id p' = pf_id demo
    /\ find (triggerIs "PETR4") (triggers p')
       = Some (mkTrigger "PETR4" None (Some (Fin 45)) None
                 (Some ""%string)).
Proof.
  apply (@triggerForm_replaces_all_thresholds demo "PETR4"
           None (Some (Fin 45)) None "" [demo] demo).
  - discriminate.
  - left. reflexivity.
  - reflexivity.
Defined.

Lemma removeTx_undoes_addTx_witness :
  removeTx (Some demo) "a3" (addTx (Some demo) "a3" txDraft [demo])
  = [demo].
Proof.
  apply (@removeTx_undoes_addTx demo "a3" txDraft [demo]).
  intros p t [<- | []] _ [<- | [<- | []]]; discriminate.
Defined.

(* ===================================================================== *)
(** * Dividends *)
(* ===================================================================== *)

Lemma or0_fin (y : Q) : exists y' : Q, JS.or0 (Fin y) = Fin y' /\ y' == y.
Proof.
  unfold JS.or0. simpl. destruct (JS.Qeqb y 0) eqn:E; simpl.
  - exists 0. split; [reflexivity|]. apply Qeqb_eq in E.
    symmetry. exact E.
  - exists y. split; reflexivity.
Qed.

Section Dividends.

Variable DateValue : string -> number.
Variable localeCompare : string -> string -> Z.

Local Abbreviation aggregate := (aggregatePositions DateValue localeCompare).

Lemma positionOf_money (p : PortfolioData) (k : string)
    (l : list Transaction) :
  mktValue (positionOf DateValue p (k, l))
  = JS.mul (qty (positionOf DateValue p (k, l)))
           (lastPrice (positionOf DateValue p (k, l)))
  /\ pl (positionOf DateValue p (k, l))
     = JS.sub (mktValue (positionOf DateValue p (k, l)))
              (invested (positionOf DateValue p (k, l)))
  /\ divsTotal (positionOf DateValue p (k, l))
     = JS.opt_or0 (JSMap.get (divByTicker DateValue p) k).
Proof.
  unfold positionOf. destruct (costFold l) as [q c]. simpl.
  repeat split; reflexivity.
Qed.

(** The running total of a ticker's dividends, row after row. *)
Lemma divFold_in_order (txs : list Transaction) (tk : string)
    (ds : list DividendEntry) :
  (forall d, In d ds -> dv_ticker d = tk ->
             JS.is_fin (ledgerTotal DateValue txs d) = true) ->
  forall (m : JSMap.t number) (s : number) (a0 : Q),
    JS.opt_or0 (JSMap.get m tk) = Fin a0 ->
    s =n= Fin a0 ->
    exists a : Q,
      JS.opt_or0
        (JSMap.get (fold_left (divStep DateValue txs) ds m) tk) = Fin a
      /\ Fin a
         =n= fold_left JS.add
               (map (ledgerTotal DateValue txs) (filter (dividendIs tk) ds))
               s.
Proof.
  induction ds as [|d ds IH]; intros Hfin m s a0 Hm Hs;
    cbn [fold_left filter].
  - exists a0. split; [exact Hm|]. apply n_eq_sym. exact Hs.
  - assert (Hfin' : forall d0, In d0 ds -> dv_ticker d0 = tk ->
                      JS.is_fin (ledgerTotal DateValue txs d0) = true)
      by (intros; apply Hfin; [right|]; assumption).
    unfold dividendIs at 1.
    destruct (String.eqb (dv_ticker d) tk) eqn:E.
    + apply String.eqb_eq in E.
      pose proof (Hfin d (or_introl eq_refl) E) as Hd.
      destruct (ledgerTotal DateValue txs d) as [| | |x] eqn:Ex;
        try discriminate.
      destruct (or0_fin (a0 + x)) as (y & Hy & Hyx).
      cbn [map fold_left]. rewrite Ex.
      apply (IH Hfin' (divStep DateValue txs m d) (JS.add s (Fin x)) y).
      * assert (Hstep : divStep DateValue txs m d
                  = JSMap.set m (dv_ticker d)
                      (JS.add (JS.opt_or0 (JSMap.get m (dv_ticker d)))
                              (ledgerTotal DateValue txs d)))
          by reflexivity.
        rewrite Hstep, Ex, E, get_set, String.eqb_refl, Hm.
        simpl. exact Hy.
      * eapply n_eq_trans;
          [apply add_compat; [exact Hs | apply n_eq_refl]|].
        simpl. symmetry. exact Hyx.
    + apply (IH Hfin' _ s a0); [|exact Hs].
      unfold divStep. rewrite get_set, E. exact Hm.
Qed.

(** X17.  The dividend total of a traded ticker is the sum, accumulated
    from 0 in stored order, of the rows of the dividend history for that
    ticker, each row being the share count on the payment date times the
    value per share (as long as every row is a finite number); a ticker
    without transactions has a dividend total of 0. *)
Theorem divsTotal_is_sum_of_ledger_rows
    (p : PortfolioData) (pos : Position) :
  In pos (aggregate p) ->
  (In (ticker pos) (map tx_ticker (transactions p)) ->
   (forall d, In d (dividends p) -> dv_ticker d = ticker pos ->
      JS.is_fin (ledgerTotal DateValue (transactions p) d) = true) ->
   divsTotal pos
   =n= sumInOrder
         (map (ledgerTotal DateValue (transactions p))
              (filter (dividendIs (ticker pos)) (dividends p))))
  /\ (~ In (ticker pos) (map tx_ticker (transactions p)) ->
      divsTotal pos = JS.zero).
Proof.
  intro Hin.
  destruct (@aggregate_cases DateValue localeCompare p pos Hin)
    as [[Htx E] | [Hno (pr & _ & E)]].
  - split; [|intro; contradiction].
    intros _ Hfin.
    destruct (positionOf_money p (ticker pos)
                (filter (tickerIs (ticker pos)) (transactions p)))
      as (_ & _ & Hd).
    rewrite <- E in Hd. rewrite Hd. unfold divByTicker, sumInOrder.
    destruct (@divFold_in_order (transactions p) (ticker pos) (dividends p)
                Hfin JSMap.empty JS.zero 0 eq_refl (n_eq_refl JS.zero))
      as (a & Ha & Hs).
    rewrite Ha. exact Hs.
  - split; [intro; contradiction|].
    intros _. rewrite E. reflexivity.
Qed.

End Dividends.

Lemma divsTotal_is_sum_of_ledger_rows_witness :
  divsTotal (tradedPosition scenarioWithDividends "PETR4")
  =n= sumInOrder
        (map (ledgerTotal isoDateValue (transactions scenarioWithDividends))
             (filter (dividendIs "PETR4")
                     (dividends scenarioWithDividends))).
Proof.
  destruct (@divsTotal_is_sum_of_ledger_rows isoDateValue codeUnitCompare
              scenarioWithDividends
              (tradedPosition scenarioWithDividends "PETR4")) as [H _].
  - vm_compute. left. reflexivity.
  - apply H.
    + left. reflexivity.
    + intros d [<- | [<- | []]] _; reflexivity.
Defined.

(* ===================================================================== *)
(** * Further properties of the CSV import *)
(* ===================================================================== *)

Lemma upperChar_notLower (c : ascii) : notLower (Str.upperChar c) = true.
Proof.
  destruct c as [[] [] [] [] [] [] [] []]; vm_compute; reflexivity.
Qed.

Lemma toUpperCase_notLower (l : list ascii) :
  forallb notLower (Str.toUpperCase l) = true.
Proof.
  induction l as [|c l IH]; simpl; [reflexivity|].
  rewrite upperChar_notLower. exact IH.
Qed.

Section CsvMore.

Variable uid : nat -> string.
Variable todayISO : string.

Lemma rowToTransaction_shape (header : list ascii) (id : string)
    (r : list ascii) (t : Transaction) :
  rowToTransaction todayISO header id r = Some t ->
  tx_id t = id
  /\ tx_ticker t <> ""%string
  /\ forallb notLower (list_ascii_of_string (tx_ticker t)) = true.
Proof.
  unfold rowToTransaction.
  destruct (Str.nonEmpty (Str.toUpperCase _)) eqn:N; simpl;
    [|discriminate].
  intros [= <-]. simpl. repeat split.
  - intro H.
    apply (f_equal list_ascii_of_string) in H.
    rewrite list_ascii_of_string_of_list_ascii in H. simpl in H.
    rewrite H in N. discriminate.
  - rewrite list_ascii_of_string_of_list_ascii.
    apply toUpperCase_notLower.
Qed.

(** X19.  Every imported transaction has a ticker that is not empty and
    has no lower-case letter, whatever the text is. *)
Theorem csv_tickers_nonempty_upper_case (csv : string) (t : Transaction) :
  In t (csvToTransactions uid todayISO csv) ->
  tx_ticker t <> ""%string
  /\ forallb notLower (list_ascii_of_string (tx_ticker t)) = true.
Proof.
  intro Hin. unfold csvToTransactions in Hin.
  destruct (csvRows csv) as [|h rows]; [destruct Hin|].
  apply importStep_fold_In in Hin.
  destruct Hin as [[] | (r & id & _ & E)].
  apply rowToTransaction_shape in E. tauto.
Qed.

(** X20.  When the header has no [fees] column, every imported
    transaction has fees of 0. *)
Theorem csv_without_fees_column_gives_zero_fees
    (csv : string) (h : list ascii) (rows : list (list ascii))
    (t : Transaction) :
  csvRows csv = h :: rows ->
  idx (Str.toLowerCase h) "fees" = None ->
  In t (csvToTransactions uid todayISO csv) ->
  tx_fees t = Some JS.zero.
Proof.
  intros Hrows Hidx Hin. unfold csvToTransactions in Hin.
  rewrite Hrows in Hin.
  apply importStep_fold_In in Hin.
  destruct Hin as [[] | (r & id & _ & E)].
  apply rowToTransaction_numbers in E.
  destruct E as (_ & _ & Hf). rewrite Hf, Hidx. reflexivity.
Qed.

Lemma importStep_fold_ids (header : list ascii) (rows : list (list ascii)) :
  forall out : list Transaction,
    map tx_id out = map uid (seq 0 (List.length out)) ->
    map tx_id (fold_left (importStep uid todayISO header) rows out)
    = map uid
        (seq 0 (List.length
                  (fold_left (importStep uid todayISO header) rows out)))
    /\ (List.length (fold_left (importStep uid todayISO header) rows out)
        <= List.length out + List.length rows)%nat.
Proof.
  induction rows as [|r rows IH]; intros out Hout; simpl.
  - split; [exact Hout | lia].
  - destruct (IH (importStep uid todayISO header out r)) as [H1 H2].
    + unfold importStep.
      destruct (rowToTransaction todayISO header
                  (uid (List.length out)) r) as [t|] eqn:E;
        [|exact Hout].
      apply rowToTransaction_shape in E. destruct E as (Eid & _).
      rewrite map_app, length_app. simpl.
      rewrite Nat.add_1_r, seq_S, map_app. simpl.
      rewrite Hout, Eid. reflexivity.
    + split; [exact H1|].
      assert (L : (List.length (importStep uid todayISO header out r)
                   <= S (List.length out))%nat).
      { unfold importStep.
        destruct (rowToTransaction _ _ _ _); [|lia].
        rewrite length_app. simpl. lia. }
      lia.
Qed.

(** X21.  The import keeps at most one transaction per data row (the
    rows after the first non-blank line), so a text with no line or with
    a header alone gives nothing; and the k-th transaction kept carries
    the k-th identifier drawn. *)
Theorem csv_import_count_and_ids (csv : string) :
  (List.length (csvToTransactions uid todayISO csv)
   <= List.length (csvRows csv) - 1)%nat
  /\ map tx_id (csvToTransactions uid todayISO csv)
     = map uid
         (seq 0 (List.length (csvToTransactions uid todayISO csv)))
  /\ ((List.length (csvRows csv) <= 1)%nat ->
      csvToTransactions uid todayISO csv = []).
Proof.
  assert (A : (List.length (csvToTransactions uid todayISO csv)
               <= List.length (csvRows csv) - 1)%nat
              /\ map tx_id (csvToTransactions uid todayISO csv)
                 = map uid
                     (seq 0 (List.length
                               (csvToTransactions uid todayISO csv)))).
  { unfold csvToTransactions.
    destruct (csvRows csv) as [|h rows]; simpl; [split; [lia|reflexivity]|].
    destruct (importStep_fold_ids (Str.toLowerCase h) rows [] eq_refl)
      as [H1 H2].
    simpl in H2. split; [lia | exact H1]. }
  destruct A as [A1 A2]. repeat split; try assumption.
  intro H.
  destruct (csvToTransactions uid todayISO csv) as [|t l]; [reflexivity|].
  simpl in A1. lia.
Qed.

End CsvMore.

Lemma csv_without_fees_column_gives_zero_fees_witness :
  tx_fees (mkTransaction "id0" "2024-01-01" "PETR4" BUY
             (Fin 100) (Fin (375 # 10)) (Some JS.zero))
  = Some JS.zero.
Proof.
  apply (@csv_without_fees_column_gives_zero_fees numberedUid "2025-01-10"
           csvWithoutFees
           (list_ascii_of_string "date,ticker,type,qty,price")
           [ list_ascii_of_string "2024-01-01,petr4,buy,100,37.5";
             list_ascii_of_string "2024-01-02,,buy,1,1";
             list_ascii_of_string "2024-02-01, vale3 ,SELL,20,62.2" ]).
  - vm_compute. reflexivity.
  - vm_compute. reflexivity.
  - vm_compute. left. reflexivity.
Defined.

Lemma csv_tickers_nonempty_upper_case_witness :
  "VALE3"%string <> ""%string
  /\ forallb notLower (list_ascii_of_string "VALE3") = true.
Proof.
  apply (@csv_tickers_nonempty_upper_case numberedUid "2025-01-10"
           csvWithoutFees
           (mkTransaction "id1" "2024-02-01" "VALE3" SELL
              (Fin 20) (Fin (622 # 10)) (Some JS.zero))).
  vm_compute. right. left. reflexivity.
Defined.

Lemma csv_import_count_and_ids_witness :
  csvToTransactions numberedUid "2025-01-10"
    "date,ticker,type,qty,price,fees" = [].
Proof.
  apply (@csv_import_count_and_ids numberedUid "2025-01-10"
           "date,ticker,type,qty,price,fees").
  vm_compute. lia.
Defined.

Lemma no_quotes_no_trigger_signals_witness :
  triggerSignals
    (aggregatePositions isoDateValue codeUnitCompare halfShare) = [].
Proof.
  apply (@no_quotes_no_trigger_signals isoDateValue codeUnitCompare
           halfShare).
  reflexivity.
Defined.
